(** * NativeDateHelper: the [NativeDate] class of [src/NativeDateHelper.js]

    The class wraps a native JavaScript [Date].  Everything it computes goes
    through the Date object's local-time getters and setters and through
    [new Date(string)], so the development has three layers:

    - [Js]: the fragment of the JavaScript runtime the class relies on
      (numbers with NaN, template-literal number printing, [split]/[map]/[join],
      the regular expression of [isIso], and the Date algorithms of ECMA-262);
    - the class itself, method by method, under the names of the source;
    - the properties. *)

From Stdlib Require Import ZArith List String Ascii Bool Lia.
From Stdlib Require Import DecimalString.
Import ListNotations.

Local Open Scope string_scope.
Local Open Scope Z_scope.

(* ================================================================== *)
(** * The runtime the class runs on *)
(* ================================================================== *)

Module Js.

(** ** Numbers

    Every number the class handles is a time value, a calendar field or a
    sum of a calendar field and an argument: an integer, or NaN (what every
    getter of an invalid Date returns). *)

Inductive number : Type :=
  | NaN : number
  | Int : Z -> number.

(** [a + b] on numbers. *)
Definition add (a b : number) : number :=
  match a, b with
  | Int x, Int y => Int (x + y)
  | _, _ => NaN
  end.

(** [a - b] on numbers. *)
Definition sub (a b : number) : number :=
  match a, b with
  | Int x, Int y => Int (x - y)
  | _, _ => NaN
  end.

(** [a === b] on numbers: NaN is not equal to itself. *)
Definition strictEq (a b : number) : bool :=
  match a, b with
  | Int x, Int y => x =? y
  | _, _ => false
  end.

(** [a < b], [a > b], [a <= b], [a >= b]: false as soon as one side is NaN. *)
Definition lt (a b : number) : bool :=
  match a, b with
  | Int x, Int y => x <? y
  | _, _ => false
  end.

Definition gt (a b : number) : bool := lt b a.

Definition le (a b : number) : bool :=
  match a, b with
  | Int x, Int y => x <=? y
  | _, _ => false
  end.

Definition ge (a b : number) : bool := le b a.

(** [a % b]: the remainder takes the sign of the dividend ([Z.rem]); a zero
    divisor gives NaN. *)
Definition rem (a b : number) : number :=
  match a, b with
  | Int x, Int y => if y =? 0 then NaN else Int (Z.rem x y)
  | _, _ => NaN
  end.

(** [`${n}`]: decimal digits, a leading minus sign for a negative integer,
    and the three letters NaN. *)
Definition toString (n : number) : string :=
  match n with
  | NaN => "NaN"
  | Int z => NilZero.string_of_int (Z.to_int z)
  end.

(** ** Strings

    A string is a sequence of characters; of its characters the class only
    ever tells digits and the hyphen from the rest. *)

(** [s.split(sep)] for a one-character separator: never the empty list,
    [""] splits into [[""]]. *)
Fixpoint split (sep : ascii) (s : string) : list string :=
  match s with
  | EmptyString => [EmptyString]
  | String c rest =>
      if Ascii.eqb c sep then EmptyString :: split sep rest
      else match split sep rest with
           | [] => [String c EmptyString]
           | item :: items => String c item :: items
           end
  end.

(** [items.join(sep)]. *)
Definition join (sep : string) (items : list string) : string :=
  String.concat sep items.

(** [s.length] as a JavaScript number. *)
Definition strlen (s : string) : Z := Z.of_nat (String.length s).

(** ** Regular expressions

    The grammar of [isIso] uses character classes, sequence, alternative and
    the optional [?]; matching is by derivatives. *)

Inductive regex : Type :=
  | Fail : regex
  | Eps : regex
  | Class : (ascii -> bool) -> regex
  | Seq : regex -> regex -> regex
  | Alt : regex -> regex -> regex.

Fixpoint nullable (r : regex) : bool :=
  match r with
  | Fail => false
  | Eps => true
  | Class _ => false
  | Seq a b => nullable a && nullable b
  | Alt a b => nullable a || nullable b
  end.

Fixpoint deriv (c : ascii) (r : regex) : regex :=
  match r with
  | Fail => Fail
  | Eps => Fail
  | Class p => if p c then Eps else Fail
  | Seq a b =>
      if nullable a then Alt (Seq (deriv c a) b) (deriv c b)
      else Seq (deriv c a) b
  | Alt a b => Alt (deriv c a) (deriv c b)
  end.

(** [new RegExp("^(" + r + ")$").test(s)]: the whole string matches [r]. *)
Fixpoint test (r : regex) (s : string) : bool :=
  match s with
  | EmptyString => nullable r
  | String c rest => test (deriv c r) rest
  end.

Definition chr (c : ascii) : regex := Class (Ascii.eqb c).

(** [[lo-hi]] *)
Definition range (lo hi : ascii) : regex :=
  Class (fun c => (nat_of_ascii lo <=? nat_of_ascii c)%nat
                  && (nat_of_ascii c <=? nat_of_ascii hi)%nat).

(** [\d] *)
Definition digit : regex := range "0" "9".

(** [r?] *)
Definition opt (r : regex) : regex := Alt r Eps.

(** ** Values

    What a caller can hand to the constructor: the primitives, a native
    Date object (given by its time value, NaN for an Invalid Date), and any
    other object.  Of such an object the class first calls [getFullYear]:
    [VObject] has no callable [getFullYear] (a plain object such as [{}]),
    [VYearObject v] has one that returns [v] and has no other date
    accessor (such as [{getFullYear: () => v}]). *)

Inductive value : Type :=
  | VUndefined : value
  | VNull : value
  | VBoolean : bool -> value
  | VNumber : number -> value
  | VString : string -> value
  | VDate : number -> value
  | VObject : value
  | VYearObject : value -> value.

(** [typeof v]; [typeof null] is ["object"]. *)
Definition typeof (v : value) : string :=
  match v with
  | VUndefined => "undefined"
  | VNull => "object"
  | VBoolean _ => "boolean"
  | VNumber _ => "number"
  | VString _ => "string"
  | VDate _ => "object"
  | VObject => "object"
  | VYearObject _ => "object"
  end.

(** Exceptions and completions: a call either returns or throws. *)
Inductive exn : Type :=
  | TypeError : exn.

Inductive completion (A : Type) : Type :=
  | Normal : A -> completion A
  | Throw : exn -> completion A.

Arguments Normal {A} _.
Arguments Throw {A} _.

Definition bind {A B : Type} (c : completion A) (k : A -> completion B)
  : completion B :=
  match c with
  | Normal a => k a
  | Throw e => Throw e
  end.

End Js.

Notation "x <- c ;; k" := (Js.bind c (fun x => k))
  (at level 61, c at next level, right associativity).

(* ================================================================== *)
(** * The native Date (ECMA-262, Date objects)

    A Date object is its time value: milliseconds since the epoch in UTC,
    or NaN.  The abstract operations below keep the names the language
    specification gives them.  Three things are left to the host by the
    specification and are therefore fields of [Host]: the local time zone
    adjustment, the current instant, and what the string parser does outside
    the date-time string format. *)
(* ================================================================== *)

Module JsDate.

Import Js.

Definition msPerDay : Z := 86400000.
Definition msPerMinute : Z := 60000.
Definition maxTime : Z := 8640000000000000.

Definition Day (t : Z) : Z := t / msPerDay.
Definition TimeWithinDay (t : Z) : Z := t mod msPerDay.

Definition DaysInYear (y : Z) : Z :=
  if negb (y mod 4 =? 0) then 365
  else if negb (y mod 100 =? 0) then 366
  else if negb (y mod 400 =? 0) then 365
  else 366.

Definition DayFromYear (y : Z) : Z :=
  365 * (y - 1970) + (y - 1969) / 4 - (y - 1901) / 100 + (y - 1601) / 400.

Definition TimeFromYear (y : Z) : Z := msPerDay * DayFromYear y.

(** The largest [y] with [TimeFromYear y <= t].  A year starts at a
    midnight, so the day number decides; the mean Gregorian year has
    146097/400 days, so the year counted in mean years from 1970 is at most
    one off.  [YearFromTime_largest] shows the result is the year the
    specification asks for. *)
Definition YearFromTime (t : Z) : Z :=
  let y := 1970 + (400 * Day t) / 146097 in
  if Day t <? DayFromYear y then y - 1
  else if DayFromYear (y + 1) <=? Day t then y + 1
  else y.

Definition LeapDays (y : Z) : Z := if DaysInYear y =? 366 then 1 else 0.

Definition InLeapYear (t : Z) : Z := LeapDays (YearFromTime t).

Definition DayWithinYear (t : Z) : Z := Day t - DayFromYear (YearFromTime t).

Definition MonthFromTime (t : Z) : Z :=
  let d := DayWithinYear t in
  let leap := InLeapYear t in
  if d <? 31 then 0
  else if d <? 59 + leap then 1
  else if d <? 90 + leap then 2
  else if d <? 120 + leap then 3
  else if d <? 151 + leap then 4
  else if d <? 181 + leap then 5
  else if d <? 212 + leap then 6
  else if d <? 243 + leap then 7
  else if d <? 273 + leap then 8
  else if d <? 304 + leap then 9
  else if d <? 334 + leap then 10
  else 11.

Definition DateFromTime (t : Z) : Z :=
  let d := DayWithinYear t in
  let leap := InLeapYear t in
  match MonthFromTime t with
  | 0 => d + 1
  | 1 => d - 30
  | 2 => d - 58 - leap
  | 3 => d - 89 - leap
  | 4 => d - 119 - leap
  | 5 => d - 150 - leap
  | 6 => d - 180 - leap
  | 7 => d - 211 - leap
  | 8 => d - 242 - leap
  | 9 => d - 272 - leap
  | 10 => d - 303 - leap
  | _ => d - 333 - leap
  end.

(** Day within the year on which month [mn] (0-based) starts. *)
Definition MonthStart (mn leap : Z) : Z :=
  match mn with
  | 0 => 0
  | 1 => 31
  | 2 => 59 + leap
  | 3 => 90 + leap
  | 4 => 120 + leap
  | 5 => 151 + leap
  | 6 => 181 + leap
  | 7 => 212 + leap
  | 8 => 243 + leap
  | 9 => 273 + leap
  | 10 => 304 + leap
  | _ => 334 + leap
  end.

(** [TimeClip]: a time value beyond 8.64e15 ms either side of the epoch is
    NaN. *)
Definition TimeClip (t : Z) : number :=
  if maxTime <? Z.abs t then NaN else Int t.

(** [MakeDay (year, month, date)]: the month may lie outside 0..11 and the
    date outside the month; both carry.  The result is a day number whatever
    the day on which the month starts, so that a date in the first month of
    the time range keeps its day; the range is checked by the [TimeClip]
    that ends every setter. *)
Definition MakeDay (year month date : number) : number :=
  match year, month, date with
  | Int y, Int m, Int dt =>
      let ym := y + m / 12 in
      let mn := m mod 12 in
      let first := DayFromYear ym + MonthStart mn (LeapDays ym) in
      Int (first + dt - 1)
  | _, _, _ => NaN
  end.

(** [MakeDate (day, time)]. *)
Definition MakeDate (day : number) (time : Z) : number :=
  match day with
  | Int d => Int (d * msPerDay + time)
  | NaN => NaN
  end.

Record Host : Type := {
  (** [LocalTZA (t, isUTC)] in milliseconds: the offset of local time from
      UTC at the UTC instant [t] ([isUTC = true]) or at the local time [t]
      ([isUTC = false]). *)
  LocalTZA : Z -> bool -> Z;
  (** the time value [new Date()] is created with *)
  currentTime : Z;
  (** [new Date("YYYY-MM-DD")] with a day of 29..31 that the month does not
      have: some engines carry into the next month ([true]), others answer
      Invalid Date ([false]) *)
  dayCarry : bool;
  (** the implementation-defined parse of a string that is not in the
      date-time string format *)
  hostParse : string -> number
}.

Section WithHost.

Variable host : Host.

Definition LocalTime (t : Z) : Z := t + LocalTZA host t true.
Definition UTC (t : Z) : Z := t - LocalTZA host t false.

(** [TimeClip (UTC (newDate))], the last step of every setter. *)
Definition clipUTC (newDate : number) : number :=
  match newDate with
  | Int t => TimeClip (UTC t)
  | NaN => NaN
  end.

(** *** Getters: NaN for an Invalid Date, the local field otherwise *)

Definition getFullYear (tv : number) : number :=
  match tv with
  | NaN => NaN
  | Int t => Int (YearFromTime (LocalTime t))
  end.

Definition getMonth (tv : number) : number :=
  match tv with
  | NaN => NaN
  | Int t => Int (MonthFromTime (LocalTime t))
  end.

Definition getDate (tv : number) : number :=
  match tv with
  | NaN => NaN
  | Int t => Int (DateFromTime (LocalTime t))
  end.

Definition getTime (tv : number) : number := tv.

Definition getTimezoneOffset (tv : number) : number :=
  match tv with
  | NaN => NaN
  | Int t => Int ((t - LocalTime t) / msPerMinute)
  end.

(** [d.toString() === "Invalid Date"]: [toString] prints exactly that text
    for a NaN time value, and a weekday, month, day, year and clock time for
    any other. *)
Definition toStringIsInvalidDate (tv : number) : bool :=
  match tv with
  | NaN => true
  | Int _ => false
  end.

(** *** Setters: the new time value of the object *)

(** [setFullYear (year)]: an Invalid Date is first reset to local time +0. *)
Definition setFullYear (tv : number) (year : number) : number :=
  let t := match tv with NaN => 0 | Int t => LocalTime t end in
  clipUTC (MakeDate (MakeDay year (Int (MonthFromTime t)) (Int (DateFromTime t)))
                    (TimeWithinDay t)).

(** [setMonth (month)], [month] 0-based. *)
Definition setMonth (tv : number) (month : number) : number :=
  match tv with
  | NaN => NaN
  | Int t0 =>
      let t := LocalTime t0 in
      clipUTC (MakeDate (MakeDay (Int (YearFromTime t)) month (Int (DateFromTime t)))
                        (TimeWithinDay t))
  end.

(** [setDate (date)]. *)
Definition setDate (tv : number) (date : number) : number :=
  match tv with
  | NaN => NaN
  | Int t0 =>
      let t := LocalTime t0 in
      clipUTC (MakeDate (MakeDay (Int (YearFromTime t)) (Int (MonthFromTime t)) date)
                        (TimeWithinDay t))
  end.

(** *** [new Date(string)]

    The class only ever parses strings with two or three hyphens.  Of the
    date-time string format those are the date-only forms [YYYY-MM-DD] and,
    with an expanded year, [+YYYYYY-MM-DD] and [-YYYYYY-MM-DD]; a date-only
    form is a UTC midnight.  Any other string goes to [hostParse]. *)

Definition isDigit (c : ascii) : bool :=
  (48 <=? nat_of_ascii c)%nat && (nat_of_ascii c <=? 57)%nat.

Fixpoint digitsValue (s : string) (acc : Z) : option Z :=
  match s with
  | EmptyString => Some acc
  | String c rest =>
      if isDigit c
      then digitsValue rest (10 * acc + (Z.of_nat (nat_of_ascii c) - 48))
      else None
  end.

(** A field of exactly [width] digits. *)
Definition field (width : nat) (s : string) : option Z :=
  if (String.length s =? width)%nat then digitsValue s 0 else None.

(** The year of a date-only form: four digits, or a sign and six digits
    ([-000000] is not a year). *)
Definition yearField (negative : bool) (s : string) : option Z :=
  if negative then
    match field 6 s with
    | Some y => if y =? 0 then None else Some (- y)
    | None => None
    end
  else
    match s with
    | String "+" digits => field 6 digits
    | _ => field 4 s
    end.

(** Days of month [m] (1-based) in year [y]. *)
Definition DaysInMonth (y m : Z) : Z :=
  match m with
  | 2 => 28 + LeapDays y
  | 4 | 6 | 9 | 11 => 30
  | _ => 31
  end.

(** The time value of the date-only form with these fields: UTC midnight
    of that day; NaN for a month outside 01..12 or a day outside 01..31. *)
Definition dateOnly (y m d : Z) : number :=
  if (1 <=? m) && (m <=? 12) && (1 <=? d) && (d <=? 31)
     && (dayCarry host || (d <=? DaysInMonth y m))
  then match MakeDate (MakeDay (Int y) (Int (m - 1)) (Int d)) 0 with
       | Int t => TimeClip t
       | NaN => NaN
       end
  else NaN.

Definition parse (s : string) : number :=
  let fields :=
    match split "-" s with
    | [y; m; d] => Some (yearField false y, field 2 m, field 2 d)
    | [EmptyString; y; m; d] => Some (yearField true y, field 2 m, field 2 d)
    | _ => None
    end in
  match fields with
  | Some (Some y, Some m, Some d) => dateOnly y m d
  | _ => hostParse host s
  end.

(** [new Date(s)] and [new Date()]. *)
Definition newDateFromString (s : string) : number := parse s.
Definition newDateNow : number := Int (currentTime host).

End WithHost.

(** A host whose local time is a fixed offset from UTC ([offset]
    milliseconds ahead of it, behind it when negative). *)
Definition fixedZone (offset now : Z) (carry : bool) (fallback : string -> number)
  : Host :=
  {| LocalTZA := fun _ _ => offset;
     currentTime := now;
     dayCarry := carry;
     hostParse := fallback |}.

End JsDate.

(* ================================================================== *)
(** * The class [NativeDate] *)
(* ================================================================== *)

Import Js JsDate.

(** The value [x.getFullYear()] completes with: a native Date answers with
    its local year, [VYearObject] with what its own function returns, and
    everything else (null, a plain object, a primitive) has no such function
    to call. *)
Definition callGetFullYear (host : Host) (x : value) : completion value :=
  match x with
  | VDate tv => Normal (VNumber (getFullYear host tv))
  | VYearObject result => Normal result
  | _ => Throw TypeError
  end.

(** Truthiness, as [&&] and [!] test it. *)
Definition truthy (x : value) : bool :=
  match x with
  | VUndefined | VNull => false
  | VBoolean b => b
  | VNumber NaN => false
  | VNumber (Int z) => negb (z =? 0)
  | VString s => negb (s =? "")%string
  | VDate _ | VObject | VYearObject _ => true
  end.

(** The fields of an instance.  [generatedDate] holds a native Date, kept
    here as its time value. *)
Record NativeDate : Type := {
  isHealed : bool;
  generatedDate : number;
  dateString : string
}.

(** [^([12]\d{3}-(0?[1-9]|1[0-2])-(0?[1-9]|[12]\d|3[01]))$] *)
Definition isoRegex : regex :=
  Seq (range "1" "2") (Seq digit (Seq digit (Seq digit
  (Seq (chr "-")
  (Seq (Alt (Seq (opt (chr "0")) (range "1" "9"))
            (Seq (chr "1") (range "0" "2")))
  (Seq (chr "-")
       (Alt (Seq (opt (chr "0")) (range "1" "9"))
       (Alt (Seq (range "1" "2") digit)
            (Seq (chr "3") (range "0" "1")))))))))).

Section Methods.

Variable host : Host.

(** ** Helpers *)

Definition addLeadingZeros (dateString : string) : string :=
  if strlen dateString =? 10 then dateString
  else join "-"
         (map (fun item => if strlen item =? 1 then "0" ++ item else item)
              (split "-" dateString)).

Definition toIso (year month day : number) : string :=
  addLeadingZeros (toString year ++ "-" ++ toString month ++ "-" ++ toString day).

Definition isLeapYear (year : number) : bool :=
  (strictEq (rem year (Int 4)) (Int 0) && negb (strictEq (rem year (Int 100)) (Int 0)))
  || strictEq (rem year (Int 400)) (Int 0).

Definition daysInMonth (m y : number) : number :=
  match m with
  | Int 2 => if isLeapYear y then Int 29 else Int 28
  | Int 9 | Int 4 | Int 6 | Int 11 => Int 30
  | _ => Int 31
  end.

Definition isDate (potentialDate : value) : completion bool :=
  if negb (typeof potentialDate =? "object")%string then Normal false
  else result <- callGetFullYear host potentialDate ;;
       Normal (typeof result =? "number")%string.

Definition isIso (dateString : value) : bool :=
  match dateString with
  | VString s => if (s =? "")%string then false else test isoRegex s
  | _ => false
  end.

(** ** Getters *)

Definition date (this : NativeDate) : value := VDate (generatedDate this).

Definition year (this : NativeDate) : number :=
  getFullYear host (generatedDate this).

Definition month (this : NativeDate) : number :=
  add (getMonth host (generatedDate this)) (Int 1).

Definition day (this : NativeDate) : number :=
  getDate host (generatedDate this).

Definition time (this : NativeDate) : number :=
  getTime (generatedDate this).

Definition isoString (this : NativeDate) : string :=
  toIso (year this) (month this) (day this).

Definition timezoneOffset (this : NativeDate) : number :=
  getTimezoneOffset host (generatedDate this).

(** ** Construction

    The result is the new instance and what the constructor wrote with
    [console.warn].  A date-like argument is stored as it is, and the
    getters are then called on it: of the values of the model only a native
    Date has [getMonth] and [getDate]. *)

Definition healed : NativeDate :=
  {| isHealed := true; generatedDate := newDateNow host; dateString := "" |}.

Definition constructor (dateStringOrObject : value)
  : completion (NativeDate * list string) :=
  dateLike <- isDate dateStringOrObject ;;
  this <- (if dateLike then
             match dateStringOrObject with
             | VDate tv =>
                 let adopted :=
                   {| isHealed := false; generatedDate := tv; dateString := "" |} in
                 Normal {| isHealed := false;
                           generatedDate := tv;
                           dateString := isoString adopted |}
             | _ => Throw TypeError
             end
           else if isIso dateStringOrObject then
             match dateStringOrObject with
             | VString s =>
                 let isoDateString := addLeadingZeros s in
                 Normal {| isHealed := false;
                           generatedDate := newDateFromString host isoDateString;
                           dateString := isoDateString |}
             | _ => Normal healed
             end
           else Normal healed) ;;
  Normal (this,
          if truthy (date this) && toStringIsInvalidDate (generatedDate this)
          then ["DATE is not valid Date"]
          else []).

Definition nativeDateHelper (dateString : value) : completion (NativeDate * list string) :=
  constructor dateString.

(** ** Validation *)

Definition isValidDateString (this : NativeDate) : bool :=
  let isoDate := toIso (year this) (month this) (day this) in
  (isoDate =? dateString this)%string.

(** The body of [isValidDate] over what it reads from the instance:
    whether [this.generatedDate] is truthy, its [typeof], whether its
    [toString()] is "Invalid Date", and [this.year], [this.month] and
    [this.day]. *)
Definition validDateCheck (dateIsTruthy : bool) (dateTypeof : string)
    (saysInvalidDate : bool) (year month day : number) : bool :=
  if negb dateIsTruthy
     || (dateIsTruthy
         && negb (dateTypeof =? "object")%string
         && saysInvalidDate)
  then false
  else
    ge month (Int 1)
    && le month (Int 12)
    && gt day (Int 0)
    && le day (daysInMonth month year).

Definition isValidDate (this : NativeDate) : bool :=
  validDateCheck (truthy (date this)) (typeof (date this))
                 (toStringIsInvalidDate (generatedDate this))
                 (year this) (month this) (day this).

(** ** Comparison *)

Definition isEqual (this secondDate : NativeDate) : bool :=
  strictEq (year this) (year secondDate)
  && strictEq (month this) (month secondDate)
  && strictEq (day this) (day secondDate).

Definition isBefore (this secondDate : NativeDate) : bool :=
  if gt (year this) (year secondDate) then true
  else if strictEq (year this) (year secondDate)
          && gt (month this) (month secondDate) then true
  else strictEq (year this) (year secondDate)
       && strictEq (month this) (month secondDate)
       && gt (day this) (day secondDate).

Definition isAfter (this secondDate : NativeDate) : bool :=
  if lt (year this) (year secondDate) then true
  else if strictEq (year this) (year secondDate)
          && lt (month this) (month secondDate) then true
  else strictEq (year this) (year secondDate)
       && strictEq (month this) (month secondDate)
       && lt (day this) (day secondDate).

(** ** Arithmetic

    A setter changes the Date object held in [generatedDate];
    [updateGeneratedDate] then replaces it by a Date parsed from the
    instance's own fields.  Each method gives back the instance as it is
    after the call and the value the call returns, which is the new native
    Date and not the instance. *)

Definition withDate (this : NativeDate) (tv : number) : NativeDate :=
  {| isHealed := isHealed this; generatedDate := tv; dateString := dateString this |}.

Definition updateGeneratedDate (this : NativeDate) : NativeDate * value :=
  let newDateString :=
    toString (year this) ++ "-" ++ toString (month this) ++ "-" ++ toString (day this) in
  let isoDateString := addLeadingZeros newDateString in
  let this' :=
    {| isHealed := isHealed this;
       generatedDate := newDateFromString host isoDateString;
       dateString := isoDateString |} in
  (this', VDate (generatedDate this')).

Definition addYear (n : number) (this : NativeDate) : NativeDate * value :=
  updateGeneratedDate
    (withDate this (setFullYear host (generatedDate this) (add (year this) n))).

Definition addMonth (n : number) (this : NativeDate) : NativeDate * value :=
  updateGeneratedDate
    (withDate this (setMonth host (generatedDate this) (add (month this) n))).

Definition addDay (n : number) (this : NativeDate) : NativeDate * value :=
  updateGeneratedDate
    (withDate this (setDate host (generatedDate this) (add (day this) n))).

Definition subtractYear (n : number) (this : NativeDate) : NativeDate * value :=
  updateGeneratedDate
    (withDate this (setFullYear host (generatedDate this) (sub (year this) n))).

Definition subtractMonth (n : number) (this : NativeDate) : NativeDate * value :=
  updateGeneratedDate
    (withDate this (setMonth host (generatedDate this) (sub (month this) n))).

Definition subtractDay (n : number) (this : NativeDate) : NativeDate * value :=
  updateGeneratedDate
    (withDate this (setDate host (generatedDate this) (sub (day this) n))).

End Methods.

(** ** Instances that wrap a date-like object

    The constructor adopts every object whose [getFullYear()] returns a
    number (lines 10-11), a native Date or not, and from then on [year],
    [month], [day] and [isValidDate] call [getFullYear], [getMonth] and
    [getDate] on it.  A date-like object that is not a native Date is given
    here by what these three functions return and by whether its
    [toString()] is "Invalid Date"; being an object, it is truthy and its
    [typeof] is "object". *)

Record DateLike : Type := {
  likeFullYear : number;
  likeMonth : number;
  likeDate : number;
  likeSaysInvalidDate : bool
}.

(** [year], [month] and [day] of the instance that wraps [object]. *)
Definition yearOf (object : DateLike) : number := likeFullYear object.
Definition monthOf (object : DateLike) : number := add (likeMonth object) (Int 1).
Definition dayOf (object : DateLike) : number := likeDate object.

(** [isValidDate] of that instance. *)
Definition isValidDateOf (object : DateLike) : bool :=
  validDateCheck true "object" (likeSaysInvalidDate object)
                 (yearOf object) (monthOf object) (dayOf object).

(* ================================================================== *)
(** * Vocabulary of the properties *)
(* ================================================================== *)

(** The instance wraps a valid instant: its Date is not an Invalid Date. *)
Definition validInstant (this : NativeDate) : Prop :=
  generatedDate this <> NaN.

(** Strict comparison and strict equality of two numbers, as propositions:
    none of them holds of NaN. *)
Definition Greater (a b : number) : Prop :=
  match a, b with
  | Int x, Int y => x > y
  | _, _ => False
  end.

Definition Less (a b : number) : Prop := Greater b a.

Definition Same (a b : number) : Prop :=
  match a, b with
  | Int x, Int y => x = y
  | _, _ => False
  end.

(** The condition the specification gives for [isBefore]: the year is
    greater, or the years are equal and the month is greater, or years and
    months are equal and the day is greater. *)
Definition isBefore_spec (y m d y' m' d' : number) : Prop :=
  Greater y y'
  \/ (Same y y' /\ Greater m m')
  \/ (Same y y' /\ Same m m' /\ Greater d d').

(** Its mirror image, for [isAfter]. *)
Definition isAfter_spec (y m d y' m' d' : number) : Prop :=
  Less y y'
  \/ (Same y y' /\ Less m m')
  \/ (Same y y' /\ Same m m' /\ Less d d').

(** The Gregorian rule and the month lengths, in the words of the
    specification. *)
Definition gregorianLeap (y : Z) : Prop :=
  ((4 | y) /\ ~ (100 | y)) \/ (400 | y).

Definition monthLength_spec (m : Z) (leap : bool) : Z :=
  if m =? 2 then (if leap then 29 else 28)
  else if (m =? 4) || (m =? 6) || (m =? 9) || (m =? 11) then 30
  else 31.

(** Canonical form: four digits, a hyphen, two digits, a hyphen, two
    digits, and nothing else. *)
Definition isCanonical (s : string) : bool :=
  match s with
  | String y1 (String y2 (String y3 (String y4 (String h1
      (String m1 (String m2 (String h2 (String d1 (String d2 EmptyString))))))))) =>
      isDigit y1 && isDigit y2 && isDigit y3 && isDigit y4
      && Ascii.eqb h1 "-"
      && isDigit m1 && isDigit m2
      && Ascii.eqb h2 "-"
      && isDigit d1 && isDigit d2
  | _ => false
  end.

(** [x.isoString] read from a value an arithmetic method returned.  The
    accessor [isoString] belongs to the class [NativeDate]; null and
    undefined have no properties at all, and every other value of the model,
    a native Date included, does not have this one. *)
Definition readIsoString (x : value) : completion value :=
  match x with
  | VUndefined | VNull => Throw TypeError
  | _ => Normal VUndefined
  end.

(** The instance an expression [nativeDateHelper(x)] evaluates to. *)
Definition instanceOf (c : completion (NativeDate * list string))
  : completion NativeDate :=
  r <- c ;; Normal (fst r).

(** Hosts of the examples: local time is UTC, or five hours behind it. *)
Definition utcHost (now : Z) (carry : bool) (fallback : string -> number) : Host :=
  fixedZone 0 now carry fallback.

Definition westHost (now : Z) (carry : bool) (fallback : string -> number) : Host :=
  fixedZone (-18000000) now carry fallback.

(** A time value that is NaN or a UTC midnight: what [new Date] makes of a
    date-only string. *)
Definition atMidnight (tv : number) : Prop :=
  match tv with
  | NaN => True
  | Int t => TimeWithinDay t = 0
  end.

(** Shapes of the printed fields: a four-digit year, a month or day of one
    or two digits. *)
Definition fourDigits (s : string) : bool :=
  match s with
  | String a (String b (String c (String d EmptyString))) =>
      isDigit a && isDigit b && isDigit c && isDigit d
  | _ => false
  end.

Definition shortDigits (s : string) : bool :=
  match s with
  | String a EmptyString => isDigit a
  | String a (String b EmptyString) => isDigit a && isDigit b
  | _ => false
  end.

Definition zrange (lo hi : Z) : list Z :=
  map (fun i => lo + Z.of_nat i) (seq 0 (Z.to_nat (hi - lo + 1))).

(** The instance as it is after [method] has been called on a freshly
    constructed one, with the value the call returned. *)
Definition afterCall (c : completion (NativeDate * list string))
    (method : NativeDate -> NativeDate * value) : completion (NativeDate * value) :=
  r <- c ;; Normal (method (fst r)).

(** [isoString] of a freshly constructed instance. *)
Definition isoOf (host : Host) (c : completion (NativeDate * list string))
  : completion string :=
  d <- instanceOf c ;; Normal (isoString host d).

(** [isoString] of the instance after that call. *)
Definition isoAfter (host : Host) (c : completion (NativeDate * list string))
    (method : NativeDate -> NativeDate * value) : completion string :=
  r <- afterCall c method ;; Normal (isoString host (fst r)).

(** [nativeDateHelper(nativeDateHelper(s).isoString).isEqual(nativeDateHelper(s))] *)
Definition roundTrip (host : Host) (s : string) : completion bool :=
  d <- instanceOf (nativeDateHelper host (VString s)) ;;
  d' <- instanceOf (nativeDateHelper host (VString (isoString host d))) ;;
  Normal (isEqual host d' d).

Definition exampleUtc : Host := utcHost 1793000000000 true (fun _ => NaN).
Definition exampleWest : Host := westHost 1793000000000 true (fun _ => NaN).

(** The Date of 1970-01-01 and of 1970-01-02, wrapped. *)
Definition epochDay : NativeDate :=
  {| isHealed := false; generatedDate := Int 0; dateString := "1970-01-01" |}.
Definition nextDay : NativeDate :=
  {| isHealed := false; generatedDate := Int 86400000; dateString := "1970-01-02" |}.

(** A date-like object that reports 31 February 2023, and one that reports
    28 February 2023 and prints as "Invalid Date". *)
Definition thirtyFirstOfFebruary : DateLike :=
  {| likeFullYear := Int 2023; likeMonth := Int 1; likeDate := Int 31;
     likeSaysInvalidDate := false |}.

Definition printsInvalid : DateLike :=
  {| likeFullYear := Int 2023; likeMonth := Int 1; likeDate := Int 28;
     likeSaysInvalidDate := true |}.

(* ================================================================== *)
(** * Vocabulary of the further properties *)
(* ================================================================== *)

(** Every character, and the finite language of a regular expression: the
    strings it matches, listed. *)
Definition allAscii : list ascii := map ascii_of_nat (seq 0 256).

Fixpoint lang (r : regex) : list string :=
  match r with
  | Fail => []
  | Eps => [EmptyString]
  | Class p => map (fun c => String c EmptyString) (filter p allAscii)
  | Seq a b => flat_map (fun x => map (append x) (lang b)) (lang a)
  | Alt a b => lang a ++ lang b
  end.

(** The three fields of the grammar of [isIso]. *)
Definition yearRegex : regex :=
  Seq (range "1" "2") (Seq digit (Seq digit digit)).

Definition monthRegex : regex :=
  Alt (Seq (opt (chr "0")) (range "1" "9")) (Seq (chr "1") (range "0" "2")).

Definition dayRegex : regex :=
  Alt (Seq (opt (chr "0")) (range "1" "9"))
      (Alt (Seq (range "1" "2") digit) (Seq (chr "3") (range "0" "1"))).

(** A month or day as the grammar admits it: printed as it is, or with a
    leading zero when it has one digit. *)
Definition fieldForm (zero : bool) (n : Z) : string :=
  if zero && (n <? 10) then "0" ++ toString (Int n) else toString (Int n).

(** What [addLeadingZeros] does to one item. *)
Definition zeroPad (item : string) : string :=
  if strlen item =? 1 then "0" ++ item else item.

Fixpoint noHyphen (s : string) : bool :=
  match s with
  | EmptyString => true
  | String c rest => negb (Ascii.eqb c "-") && noHyphen rest
  end.

(** The day number (days since the epoch) of a calendar date, with the
    month counted from 1; a day beyond the month's length runs on into the
    following months. *)
Definition civilDay (y m d : Z) : Z :=
  DayFromYear y + MonthStart (m - 1) (LeapDays y) + d - 1.

(** The canonical text of the day with number [D], and the instance that
    holds the UTC midnight of that day together with that text. *)
Definition isoOfDay (D : Z) : string :=
  toIso (Int (YearFromTime (D * msPerDay)))
        (Int (MonthFromTime (D * msPerDay) + 1))
        (Int (DateFromTime (D * msPerDay))).

Definition onDay (healedFlag : bool) (D : Z) : NativeDate :=
  {| isHealed := healedFlag;
     generatedDate := Int (D * msPerDay);
     dateString := isoOfDay D |}.

(** The year of day [D] prints in four digits. *)
Definition fourDigitYear (D : Z) : Prop :=
  1000 <= YearFromTime (D * msPerDay) <= 9999.

(** Instances that hold an instant within a day: 15 January 2024 at 23:30,
    31 January 2024 at 08:00 and 29 February 2024 at 12:00, all UTC. *)
Definition lateEvening : NativeDate :=
  {| isHealed := false; generatedDate := Int 1705361400000; dateString := "2024-01-15" |}.

Definition endOfJanuary : NativeDate :=
  {| isHealed := false; generatedDate := Int 1706688000000; dateString := "2024-01-31" |}.

Definition leapDayNoon : NativeDate :=
  {| isHealed := false; generatedDate := Int 1709208000000; dateString := "2024-02-29" |}.

(** The instance the constructor makes of an Invalid Date. *)
Definition invalidInstance : NativeDate :=
  {| isHealed := false; generatedDate := NaN; dateString := "NaN-NaN-NaN" |}.

(* ================================================================== *)
(** * The calendar of the native Date *)
(* ================================================================== *)

Ltac split_eqb :=
  repeat match goal with
         | |- context [?a =? ?b] => destruct (Z.eqb_spec a b); cbn [negb]
         end.

Lemma DayFromYear_next (y : Z) :
  DayFromYear (y + 1) = DayFromYear y + DaysInYear y.
Proof.
  unfold DayFromYear, DaysInYear. split_eqb; Z.div_mod_to_equations; lia.
Qed.

Lemma DaysInYear_range (y : Z) : DaysInYear y = 365 \/ DaysInYear y = 366.
Proof.
  unfold DaysInYear. split_eqb; auto.
Qed.

Lemma YearFromTime_day (t : Z) :
  DayFromYear (YearFromTime t) <= Day t < DayFromYear (YearFromTime t + 1).
Proof.
  unfold YearFromTime.
  set (d := Day t). set (y := 1970 + 400 * d / 146097).
  assert (Hy : 146097 * (y - 1970) <= 400 * d < 146097 * (y - 1970) + 146097).
  { subst y. Z.div_mod_to_equations. lia. }
  clearbody y d.
  destruct (Z.ltb_spec d (DayFromYear y)) as [H1 | H1].
  - replace (y - 1 + 1) with y by lia. split; [| exact H1].
    unfold DayFromYear in *. Z.div_mod_to_equations. lia.
  - destruct (Z.leb_spec (DayFromYear (y + 1)) d) as [H2 | H2].
    + split; [exact H2 |].
      unfold DayFromYear in *. Z.div_mod_to_equations. lia.
    + lia.
Qed.

Lemma DayFromYear_mono (y y' : Z) : y <= y' -> DayFromYear y <= DayFromYear y'.
Proof.
  intros H. unfold DayFromYear. Z.div_mod_to_equations. lia.
Qed.

(** [YearFromTime t] is the largest year that has started by [t]. *)
Lemma YearFromTime_largest (t : Z) :
  TimeFromYear (YearFromTime t) <= t
  /\ forall y, TimeFromYear y <= t -> y <= YearFromTime t.
Proof.
  pose proof (YearFromTime_day t) as [Hlo Hhi].
  unfold TimeFromYear, Day, msPerDay in *. split.
  - Z.div_mod_to_equations. lia.
  - intros y Hy.
    destruct (Z.le_gt_cases y (YearFromTime t)) as [|Hgt]; [assumption|].
    assert (DayFromYear (YearFromTime t + 1) <= DayFromYear y)
      by (apply DayFromYear_mono; lia).
    Z.div_mod_to_equations. lia.
Qed.

Lemma DayWithinYear_range (t : Z) :
  0 <= DayWithinYear t < 365 + InLeapYear t.
Proof.
  pose proof (YearFromTime_day t) as [Hlo Hhi].
  rewrite DayFromYear_next in Hhi.
  unfold DayWithinYear, InLeapYear, LeapDays.
  destruct (DaysInYear_range (YearFromTime t)) as [E | E]; rewrite E in *;
    cbn; lia.
Qed.

Lemma InLeapYear_range (t : Z) : InLeapYear t = 0 \/ InLeapYear t = 1.
Proof.
  unfold InLeapYear, LeapDays. destruct (_ =? _); auto.
Qed.

Lemma MonthFromTime_range (t : Z) : 0 <= MonthFromTime t <= 11.
Proof.
  unfold MonthFromTime.
  repeat match goal with
         | |- context [?a <? ?b] => destruct (Z.ltb_spec a b)
         end; lia.
Qed.

Lemma DateFromTime_range (t : Z) : 1 <= DateFromTime t <= 31.
Proof.
  pose proof (DayWithinYear_range t) as Hd.
  unfold DateFromTime, MonthFromTime.
  destruct (InLeapYear_range t) as [E | E]; rewrite E in *;
  repeat match goal with
         | |- context [?a <? ?b] => destruct (Z.ltb_spec a b)
         end; lia.
Qed.

(* ================================================================== *)
(** * Numbers and the fields of an instance *)
(* ================================================================== *)

Lemma gt_Greater (a b : number) : gt a b = true <-> Greater a b.
Proof.
  destruct a as [|x], b as [|y]; cbn; try (split; [discriminate | tauto]).
  rewrite Z.ltb_lt. lia.
Qed.

Lemma lt_Less (a b : number) : lt a b = true <-> Less a b.
Proof.
  unfold Less. rewrite <- gt_Greater. reflexivity.
Qed.

Lemma strictEq_Same (a b : number) : strictEq a b = true <-> Same a b.
Proof.
  destruct a as [|x], b as [|y]; cbn; try (split; [discriminate | tauto]).
  apply Z.eqb_eq.
Qed.

Lemma fields_of_valid (host : Host) (this : NativeDate) :
  validInstant this ->
  exists y m d,
    year host this = Int y /\ month host this = Int m /\ day host this = Int d
    /\ 1 <= m <= 12 /\ 1 <= d <= 31.
Proof.
  unfold validInstant, year, month, day.
  destruct (generatedDate this) as [|t]; [congruence | intros _].
  cbn. pose proof (MonthFromTime_range (LocalTime host t)).
  pose proof (DateFromTime_range (LocalTime host t)).
  eexists _, _, _. repeat split; lia.
Qed.

Lemma fields_of_invalid (host : Host) (this : NativeDate) :
  generatedDate this = NaN ->
  year host this = NaN /\ month host this = NaN /\ day host this = NaN.
Proof.
  unfold year, month, day. intros ->. auto.
Qed.

Ltac bool_cases :=
  repeat match goal with
         | |- context [?a <? ?b] => destruct (Z.ltb_spec a b)
         | |- context [?a =? ?b] => destruct (Z.eqb_spec a b)
         | |- context [?a <=? ?b] => destruct (Z.leb_spec a b)
         end.

(* ================================================================== *)
(** * Local time in a zone of fixed offset *)
(* ================================================================== *)

Lemma fields_by_day (t t' : Z) :
  Day t = Day t' ->
  YearFromTime t = YearFromTime t'
  /\ MonthFromTime t = MonthFromTime t'
  /\ DateFromTime t = DateFromTime t'.
Proof.
  intros H.
  unfold DateFromTime, MonthFromTime, InLeapYear, DayWithinYear, YearFromTime.
  rewrite H. auto.
Qed.

Section East.

(** A zone ahead of UTC by less than a day reads a UTC midnight as the same
    calendar day as UTC does, so on instances that hold a UTC midnight the
    class behaves there as it does in UTC. *)

Variables (offset now : Z) (carry : bool) (fallback : string -> number).
Hypothesis ahead : 0 <= offset < msPerDay.

Local Notation "'zone'" := (fixedZone offset now carry fallback).
Local Notation "'utc'" := (fixedZone 0 now carry fallback).

Lemma east_day (t : Z) :
  TimeWithinDay t = 0 ->
  Day (LocalTime zone t) = Day (LocalTime utc t)
  /\ TimeWithinDay (LocalTime zone t) = offset
  /\ TimeWithinDay (LocalTime utc t) = 0.
Proof.
  unfold LocalTime, Day, TimeWithinDay, msPerDay in *. cbn.
  intros H. Z.div_mod_to_equations. lia.
Qed.

Lemma east_getters (tv : number) :
  atMidnight tv ->
  getFullYear zone tv = getFullYear utc tv
  /\ getMonth zone tv = getMonth utc tv
  /\ getDate zone tv = getDate utc tv.
Proof.
  destruct tv as [|t]; cbn; [auto | intros H].
  destruct (east_day t H) as (Hd & _).
  destruct (fields_by_day _ _ Hd) as (-> & -> & ->). auto.
Qed.

Lemma TimeClip_midnight (d : Z) : atMidnight (TimeClip (d * msPerDay)).
Proof.
  unfold TimeClip. destruct (_ <? _); cbn; [exact I |].
  unfold TimeWithinDay. apply Z.mod_mul. discriminate.
Qed.

Lemma east_clipUTC (day : number) :
  clipUTC zone (MakeDate day offset) = clipUTC utc (MakeDate day 0)
  /\ atMidnight (clipUTC utc (MakeDate day 0)).
Proof.
  destruct day as [|d]; cbn; [auto |].
  unfold UTC. cbn.
  replace (d * msPerDay + offset - offset) with (d * msPerDay) by lia.
  replace (d * msPerDay + 0 - 0) with (d * msPerDay) by lia.
  split; [reflexivity | apply TimeClip_midnight].
Qed.

Lemma east_setters (t : Z) (n : number) :
  TimeWithinDay t = 0 ->
  (setFullYear zone (Int t) n = setFullYear utc (Int t) n
   /\ atMidnight (setFullYear utc (Int t) n))
  /\ (setMonth zone (Int t) n = setMonth utc (Int t) n
      /\ atMidnight (setMonth utc (Int t) n))
  /\ (setDate zone (Int t) n = setDate utc (Int t) n
      /\ atMidnight (setDate utc (Int t) n)).
Proof.
  intros H. destruct (east_day t H) as (Hd & Hz & Hu).
  destruct (fields_by_day _ _ Hd) as (Hy & Hm & Hdt).
  unfold setFullYear, setMonth, setDate.
  rewrite Hy, Hm, Hdt, Hz, Hu.
  repeat split; apply east_clipUTC.
Qed.

Lemma east_fields (this : NativeDate) :
  atMidnight (generatedDate this) ->
  year zone this = year utc this
  /\ month zone this = month utc this
  /\ day zone this = day utc this
  /\ isoString zone this = isoString utc this.
Proof.
  intros H. unfold isoString, year, month, day.
  destruct (east_getters _ H) as (-> & -> & ->). auto.
Qed.

Lemma east_update (this : NativeDate) :
  atMidnight (generatedDate this) ->
  updateGeneratedDate zone this = updateGeneratedDate utc this.
Proof.
  intros H. unfold updateGeneratedDate.
  destruct (east_fields this H) as (-> & -> & -> & _). reflexivity.
Qed.

Lemma east_arithmetic (n : number) (this : NativeDate) :
  atMidnight (generatedDate this) ->
  addYear zone n this = addYear utc n this
  /\ addMonth zone n this = addMonth utc n this
  /\ addDay zone n this = addDay utc n this
  /\ subtractYear zone n this = subtractYear utc n this
  /\ subtractMonth zone n this = subtractMonth utc n this
  /\ subtractDay zone n this = subtractDay utc n this.
Proof.
  intros H.
  destruct (east_fields this H) as (Hy & Hm & Hd & _).
  unfold addYear, addMonth, addDay, subtractYear, subtractMonth, subtractDay.
  rewrite Hy, Hm, Hd.
  destruct (generatedDate this) as [|t] eqn:E.
  - unfold year, month, day. rewrite E. repeat split; reflexivity.
  - cbn in H.
    repeat split;
      match goal with
      | |- updateGeneratedDate _ (withDate _ (_ _ _ ?k)) = _ =>
          destruct (east_setters t k H) as ((Ey & My) & (Em & Mm) & (Ed & Md))
      end;
      rewrite ?Ey, ?Em, ?Ed; apply east_update; assumption.
Qed.

End East.

(* ================================================================== *)
(** * Strings *)
(* ================================================================== *)

Lemma zrange_all (p : Z -> bool) (lo hi : Z) :
  forallb p (zrange lo hi) = true ->
  forall z, lo <= z <= hi -> p z = true.
Proof.
  intros H z Hz. rewrite forallb_forall in H. apply H.
  unfold zrange. apply in_map_iff. exists (Z.to_nat (z - lo)). split; [lia |].
  apply in_seq. lia.
Qed.

Lemma year_digits (y : Z) :
  1000 <= y <= 9999 -> fourDigits (toString (Int y)) = true.
Proof.
  apply (zrange_all (fun z => fourDigits (toString (Int z)))).
  vm_compute. reflexivity.
Qed.

Lemma field_digits (z : Z) :
  1 <= z <= 31 -> shortDigits (toString (Int z)) = true.
Proof.
  apply (zrange_all (fun z => shortDigits (toString (Int z)))).
  vm_compute. reflexivity.
Qed.

Lemma digit_not_hyphen (c : ascii) :
  isDigit c = true -> Ascii.eqb c "-" = false.
Proof.
  intros H. destruct (Ascii.eqb_spec c "-") as [-> |]; [discriminate | reflexivity].
Qed.

Lemma canonical_assembly (sy sm sd : string) :
  fourDigits sy = true -> shortDigits sm = true -> shortDigits sd = true ->
  isCanonical (addLeadingZeros (sy ++ "-" ++ sm ++ "-" ++ sd)) = true.
Proof.
  destruct sy as [|y1 [|y2 [|y3 [|y4 [|? ?]]]]]; try discriminate.
  destruct sm as [|m1 [|m2 [|? ?]]]; try discriminate;
  destruct sd as [|d1 [|d2 [|? ?]]]; try discriminate;
  cbn [fourDigits shortDigits]; intros Hy Hm Hd;
  repeat match goal with
         | H : _ && _ = true |- _ => apply andb_prop in H; destruct H
         end;
  repeat match goal with
         | H : isDigit ?c = true |- _ =>
             pose proof (digit_not_hyphen c H); revert H
         end; intros;
  unfold addLeadingZeros; cbn;
  repeat match goal with
         | H : Ascii.eqb _ _ = false |- _ => rewrite H; clear H; cbn
         end;
  repeat match goal with
         | H : isDigit _ = true |- _ => rewrite H; clear H
         end; reflexivity.
Qed.

Lemma split_nonempty (sep : ascii) (s : string) : split sep s <> [].
Proof.
  destruct s as [|c rest]; cbn; [discriminate |].
  destruct (Ascii.eqb c sep); [discriminate |].
  destruct (split sep rest); discriminate.
Qed.

Lemma addLeadingZeros_nonempty (s : string) :
  s <> "" -> addLeadingZeros s <> "".
Proof.
  intros Hs. unfold addLeadingZeros.
  destruct (strlen s =? 10); [assumption |].
  destruct s as [|c rest]; [congruence |]. cbn [split].
  pose proof (split_nonempty "-" rest) as Hrest.
  destruct (Ascii.eqb c "-").
  - destruct (split "-" rest) as [|item items]; [congruence |]. cbn. discriminate.
  - destruct (split "-" rest) as [|item items]; [congruence |].
    cbn [map]. destruct (strlen (String c item) =? 1);
      destruct (map _ items); cbn; discriminate.
Qed.

Lemma toIso_nonempty (y m d : number) : toIso y m d <> "".
Proof.
  apply addLeadingZeros_nonempty.
  destruct (toString y); discriminate.
Qed.

(* ================================================================== *)
(** * Construction *)
(* ================================================================== *)

(** Whatever is not an object and does not match the grammar is healed. *)
Lemma heals_non_objects (host : Host) (x : value) :
  typeof x <> "object" -> isIso x = false ->
  nativeDateHelper host x = Normal (healed host, []).
Proof.
  intros Hobj Hiso. unfold nativeDateHelper, constructor, isDate.
  destruct (String.eqb_spec (typeof x) "object") as [E | _]; [contradiction |].
  cbn [negb bind]. rewrite Hiso. reflexivity.
Qed.

(** Away from objects the constructor always returns, and so it does on a
    native Date. *)
Lemma constructor_returns (host : Host) (x : value) :
  typeof x <> "object" \/ (exists tv, x = VDate tv) ->
  exists r, nativeDateHelper host x = Normal r.
Proof.
  intros [H | [tv ->]].
  - destruct (isIso x) eqn:Hiso.
    + destruct x; try discriminate Hiso.
      unfold nativeDateHelper, constructor. cbn [isDate typeof String.eqb
        Ascii.eqb Bool.eqb negb bind]. rewrite Hiso. cbn [bind]. eauto.
    + rewrite (heals_non_objects host x H Hiso). eauto.
  - unfold nativeDateHelper, constructor. cbn. eauto.
Qed.

(** C2.  The constructor does throw: [isDate] calls [getFullYear] on
    everything whose [typeof] is "object", and neither null nor a plain
    object has it; an object with only [getFullYear] passes [isDate] and
    throws when [isoString] asks for its month. *)
Theorem constructor_throws_on_null (host : Host) :
  nativeDateHelper host VNull = Throw TypeError
  /\ nativeDateHelper host VObject = Throw TypeError
  /\ nativeDateHelper host (VYearObject (VNumber (Int 2024))) = Throw TypeError.
Proof.
  repeat split.
Qed.

(** C6.  Healing (empty [dateString], [isHealed], the Date of the current
    instant, hence [isoString] of the local current day) is what undefined
    gets; null is neither date-like nor a string and is not healed, the
    constructor throws on it. *)
Theorem healing_misses_null (host : Host) :
  nativeDateHelper host VUndefined
    = Normal ({| isHealed := true;
                 generatedDate := Int (currentTime host);
                 dateString := "" |}, [])
  /\ isoString host (healed host)
     = toIso (Int (YearFromTime (LocalTime host (currentTime host))))
             (Int (MonthFromTime (LocalTime host (currentTime host)) + 1))
             (Int (DateFromTime (LocalTime host (currentTime host))))
  /\ isIso VNull = false
  /\ nativeDateHelper host VNull = Throw TypeError.
Proof.
  repeat split.
Qed.

(* ================================================================== *)
(** * Validation *)
(* ================================================================== *)

Lemma isLeapYear_gregorian (y : Z) :
  isLeapYear (Int y) = true <-> gregorianLeap y.
Proof.
  unfold isLeapYear, gregorianLeap. cbn.
  rewrite <- !Z.rem_divide by discriminate.
  bool_cases; cbn; intuition congruence.
Qed.

Lemma daysInMonth_table (m y : Z) :
  daysInMonth (Int m) (Int y) = Int (monthLength_spec m (isLeapYear (Int y))).
Proof.
  unfold daysInMonth, monthLength_spec.
  destruct m as [|p|p]; try reflexivity.
  do 4 (try destruct p as [p|p|]); try reflexivity;
    destruct (isLeapYear (Int y)); reflexivity.
Qed.

(** The table of [daysInMonth], whatever the year is. *)
Lemma daysInMonth_length (m : Z) (y : number) :
  daysInMonth (Int m) y = Int (monthLength_spec m (isLeapYear y)).
Proof.
  unfold daysInMonth, monthLength_spec.
  destruct m as [|p|p]; try reflexivity.
  do 4 (try destruct p as [p|p|]); try reflexivity;
    destruct (isLeapYear y); reflexivity.
Qed.

(** Past its guard, the body of [isValidDate] is the check of month and
    day. *)
Lemma validDateCheck_decides (ty : string) (says : bool) (y : number) (m d : Z) :
  ty = "object" \/ says = false ->
  validDateCheck true ty says y (Int m) (Int d) = true
  <-> 1 <= m <= 12 /\ 1 <= d <= monthLength_spec m (isLeapYear y).
Proof.
  intros Hguard. unfold validDateCheck.
  assert (E : negb true || (true && negb (ty =? "object")%string && says) = false).
  { destruct Hguard as [-> | ->]; [reflexivity |].
    cbn [negb orb andb]. apply andb_false_r. }
  rewrite E, daysInMonth_length. unfold ge, gt. cbn [le lt].
  rewrite !andb_true_iff, !Z.leb_le, Z.ltb_lt. lia.
Qed.

Lemma validDateCheck_NaN (ty : string) (says : bool) (y m d : number) :
  m = NaN \/ d = NaN -> validDateCheck true ty says y m d = false.
Proof.
  intros H. unfold validDateCheck.
  destruct (negb true || (true && negb (ty =? "object")%string && says));
    [reflexivity |].
  destruct H as [-> | ->]; [reflexivity |].
  unfold gt. cbn [lt]. rewrite andb_false_r. reflexivity.
Qed.

(** C9.  [isValidDate] is the check [validDateCheck] on what the instance
    holds.  The check is false when there is no Date, when what is held is
    not an object and prints as "Invalid Date", and when the month or the
    day is NaN, as on a native Invalid Date.  Otherwise it is true exactly
    when the month is within 1..12 and the day within 1 and the length of
    that month, whatever month and day the wrapped object reports (a native
    Date or another date-like object); the length is 29 or 28 for February
    by the Gregorian leap rule, 30 for April, June, September and November,
    and 31 otherwise. *)
Theorem isValidDate_calendar (host : Host) (this : NativeDate) :
  isValidDate host this
  = validDateCheck (truthy (date this)) (typeof (date this))
                   (toStringIsInvalidDate (generatedDate this))
                   (year host this) (month host this) (day host this)
  /\ (forall ty says y m d, validDateCheck false ty says y m d = false)
  /\ (forall ty y m d, ty <> "object" -> validDateCheck true ty true y m d = false)
  /\ (forall ty says y m d,
        m = NaN \/ d = NaN -> validDateCheck true ty says y m d = false)
  /\ (generatedDate this = NaN -> isValidDate host this = false)
  /\ (forall ty says y m d,
        ty = "object" \/ says = false ->
        validDateCheck true ty says y (Int m) (Int d) = true
        <-> 1 <= m <= 12 /\ 1 <= d <= monthLength_spec m (isLeapYear y))
  /\ (forall (object : DateLike) (m d : Z),
        monthOf object = Int m -> dayOf object = Int d ->
        isValidDateOf object = true
        <-> 1 <= m <= 12
            /\ 1 <= d <= monthLength_spec m (isLeapYear (yearOf object)))
  /\ (validInstant this ->
      exists y m d,
        year host this = Int y /\ month host this = Int m /\ day host this = Int d
        /\ (isValidDate host this = true <->
            1 <= m <= 12 /\ 1 <= d <= monthLength_spec m (isLeapYear (Int y))))
  /\ (forall y, isLeapYear (Int y) = true <-> gregorianLeap y)
  /\ (forall m y,
        daysInMonth (Int m) (Int y) = Int (monthLength_spec m (isLeapYear (Int y)))).
Proof.
  split; [reflexivity |].
  split; [reflexivity |].
  split.
  { intros ty y m d Hty. unfold validDateCheck.
    apply String.eqb_neq in Hty. rewrite Hty. reflexivity. }
  split; [exact validDateCheck_NaN |].
  split.
  { intros H. destruct (fields_of_invalid host this H) as (_ & Hm & _).
    unfold isValidDate. apply validDateCheck_NaN. left. exact Hm. }
  split; [exact validDateCheck_decides |].
  split.
  { intros object m d Hm Hd. unfold isValidDateOf. rewrite Hm, Hd.
    apply validDateCheck_decides. left. reflexivity. }
  split.
  { intros H.
    destruct (fields_of_valid host this H) as (y & m & d & Hy & Hm & Hd & _).
    exists y, m, d. split; [| split; [| split]]; try assumption.
    unfold isValidDate. rewrite Hy, Hm, Hd.
    apply validDateCheck_decides. left. reflexivity. }
  split; [exact isLeapYear_gregorian | exact daysInMonth_table].
Qed.

Lemma isValidDate_calendar_witness :
  (validInstant epochDay
   /\ exists y m d,
        year exampleUtc epochDay = Int y /\ month exampleUtc epochDay = Int m
        /\ day exampleUtc epochDay = Int d
        /\ (isValidDate exampleUtc epochDay = true <->
            1 <= m <= 12 /\ 1 <= d <= monthLength_spec m (isLeapYear (Int y))))
  /\ (monthOf thirtyFirstOfFebruary = Int 2
      /\ dayOf thirtyFirstOfFebruary = Int 31
      /\ (isValidDateOf thirtyFirstOfFebruary = true
          <-> 1 <= 2 <= 12
              /\ 1 <= 31 <= monthLength_spec 2 (isLeapYear (yearOf thirtyFirstOfFebruary))))
  /\ (validDateCheck true "string" false (Int 2023) (Int 13) (Int 1) = true
      <-> 1 <= 13 <= 12 /\ 1 <= 1 <= monthLength_spec 13 (isLeapYear (Int 2023))).
Proof.
  pose proof (isValidDate_calendar exampleUtc epochDay)
    as (_ & _ & _ & _ & _ & Hcheck & Hlike & Hvalid & _).
  split; [split; [discriminate | apply Hvalid; discriminate] |].
  split; [split; [reflexivity | split; [reflexivity |
            apply (Hlike thirtyFirstOfFebruary 2 31); reflexivity]] |].
  apply Hcheck. right. reflexivity.
Defined.

(** A date-like object is not a native Date: the one that reports
    31 February is not valid, and the one that prints as "Invalid Date" is,
    the guard on that text being for what is not an object. *)
Lemma isValidDateOf_examples :
  isValidDateOf thirtyFirstOfFebruary = false
  /\ isValidDateOf printsInvalid = true.
Proof.
  split; reflexivity.
Qed.

(** C4.  [isValidDateString] compares the canonical string of the current
    year, month and day with the stored [dateString].  On a healed instance
    the stored string is empty and the answer is false; on an instance made
    from a native Date the stored string is that very canonical string and
    the answer is true. *)
Theorem isValidDateString_provenance
    (host : Host) (x : value) (this : NativeDate) (log : list string) :
  nativeDateHelper host x = Normal (this, log) ->
  isValidDateString host this
    = (toIso (year host this) (month host this) (day host this) =? dateString this)%string
  /\ (isHealed this = true -> isValidDateString host this = false)
  /\ (forall tv, x = VDate tv -> isValidDateString host this = true).
Proof.
  intros H. split; [reflexivity |].
  assert (Hcases :
            (isHealed this = true /\ dateString this = "")
            \/ (isHealed this = false
                /\ forall tv, x = VDate tv -> dateString this = isoString host this)).
  { unfold nativeDateHelper, constructor in H.
    destruct (isDate host x) as [[|] | e]; cbn [bind] in H; [| | discriminate].
    - destruct x; try discriminate. cbn [bind] in H. injection H as <- _.
      right. split; [reflexivity |]. intros tv _. reflexivity.
    - destruct (isIso x) eqn:Hiso.
      + destruct x; try discriminate. cbn [bind] in H. injection H as <- _.
        right. split; [reflexivity |]. intros tv E. discriminate.
      + cbn [bind] in H. injection H as <- _. left. split; reflexivity. }
  unfold isValidDateString. split.
  - intros Hh. destruct Hcases as [[_ E] | [E _]]; [| congruence].
    rewrite E. apply String.eqb_neq, toIso_nonempty.
  - intros tv E. destruct Hcases as [[E1 E2] | [_ E']].
    + subst x. unfold nativeDateHelper, constructor in H. cbn in H.
      injection H as <- _. discriminate.
    + rewrite (E' tv E). apply String.eqb_refl.
Qed.

Lemma isValidDateString_provenance_witness :
  nativeDateHelper exampleUtc (VDate (Int 0)) = Normal (epochDay, [])
  /\ isValidDateString exampleUtc epochDay = true.
Proof.
  split; [reflexivity |].
  apply (proj2 (proj2 (isValidDateString_provenance
                         exampleUtc (VDate (Int 0)) epochDay [] eq_refl)) (Int 0)).
  reflexivity.
Defined.

(** C4, as stated, fails: an instance constructed from a native Date, which
    is not an ISO string source, answers true. *)
Lemma isValidDateString_true_for_date_source :
  ~ (forall (x : value) (this : NativeDate) (log : list string),
        nativeDateHelper exampleUtc x = Normal (this, log) ->
        (forall s, x <> VString s) ->
        isValidDateString exampleUtc this = false).
Proof.
  intros claim.
  specialize (claim (VDate (Int 0)) epochDay [] eq_refl).
  assert (H : forall s, VDate (Int 0) <> VString s) by (intros s; discriminate).
  specialize (claim H). vm_compute in claim. discriminate.
Qed.

(* ================================================================== *)
(** * Comparison *)
(* ================================================================== *)

(** In a zone of fixed offset within a day of UTC either
    side, the instance of "2024-01-01" [isBefore] the instance of
    "2023-01-01". *)
Lemma isBefore_example (offset now : Z) (carry : bool) (fallback : string -> number) :
  - msPerDay < offset < msPerDay ->
  let host := fixedZone offset now carry fallback in
  (d <- instanceOf (nativeDateHelper host (VString "2024-01-01")) ;;
   d' <- instanceOf (nativeDateHelper host (VString "2023-01-01")) ;;
   Normal (isBefore host d d')) = Normal true.
Proof.
  intros Hoff host.
  assert (H1 : nativeDateHelper host (VString "2024-01-01")
               = Normal ({| isHealed := false;
                            generatedDate := Int 1704067200000;
                            dateString := "2024-01-01" |}, []))
    by (destruct carry; vm_compute; reflexivity).
  assert (H2 : nativeDateHelper host (VString "2023-01-01")
               = Normal ({| isHealed := false;
                            generatedDate := Int 1672531200000;
                            dateString := "2023-01-01" |}, []))
    by (destruct carry; vm_compute; reflexivity).
  unfold instanceOf. rewrite H1, H2. cbn [bind fst]. f_equal.
  assert (Hday :
            (Day (LocalTime host 1704067200000) = Day 1704067200000
             /\ Day (LocalTime host 1672531200000) = Day 1672531200000)
            \/ (Day (LocalTime host 1704067200000) = Day 1703980800000
                /\ Day (LocalTime host 1672531200000) = Day 1672444800000)).
  { unfold LocalTime, host, Day, msPerDay in *. cbn [LocalTZA fixedZone].
    Z.div_mod_to_equations. lia. }
  unfold isBefore, year, month, day. cbn [generatedDate getFullYear getMonth getDate].
  destruct Hday as [[Ea Eb] | [Ea Eb]];
    destruct (fields_by_day _ _ Ea) as (-> & -> & ->);
    destruct (fields_by_day _ _ Eb) as (-> & -> & ->);
    vm_compute; reflexivity.
Qed.

(** C3.  [isBefore (other)] is true exactly when the year of [this] is
    greater than the year of [other], or the years are equal and its month
    is greater, or years and months are equal and its day is greater;
    [isAfter] is true exactly under the mirror-image condition with [<].
    In particular the instance of "2024-01-01" [isBefore] the instance of
    "2023-01-01", whatever fixed offset within a day of UTC local time
    has. *)
Theorem isBefore_isAfter_inverted :
  (forall (host : Host) (this other : NativeDate),
      (isBefore host this other = true <->
         isBefore_spec (year host this) (month host this) (day host this)
                       (year host other) (month host other) (day host other))
      /\ (isAfter host this other = true <->
            isAfter_spec (year host this) (month host this) (day host this)
                         (year host other) (month host other) (day host other)))
  /\ (forall (offset now : Z) (carry : bool) (fallback : string -> number),
        - msPerDay < offset < msPerDay ->
        let host := fixedZone offset now carry fallback in
        (d <- instanceOf (nativeDateHelper host (VString "2024-01-01")) ;;
         d' <- instanceOf (nativeDateHelper host (VString "2023-01-01")) ;;
         Normal (isBefore host d d')) = Normal true).
Proof.
  split; [| exact isBefore_example].
  intros host this other.
  unfold isBefore, isAfter, isBefore_spec, isAfter_spec.
  generalize (year host this) (month host this) (day host this)
             (year host other) (month host other) (day host other).
  intros y m d y' m' d'. split.
  - rewrite <- !gt_Greater, <- !strictEq_Same.
    destruct (gt y y'), (strictEq y y'), (gt m m'), (strictEq m m'), (gt d d');
      cbn; intuition congruence.
  - rewrite <- !lt_Less, <- !strictEq_Same.
    destruct (lt y y'), (strictEq y y'), (lt m m'), (strictEq m m'), (lt d d');
      cbn; intuition congruence.
Qed.

Lemma isBefore_isAfter_inverted_witness :
  - msPerDay < 0 < msPerDay
  /\ (d <- instanceOf (nativeDateHelper exampleUtc (VString "2024-01-01")) ;;
      d' <- instanceOf (nativeDateHelper exampleUtc (VString "2023-01-01")) ;;
      Normal (isBefore exampleUtc d d')) = Normal true.
Proof.
  assert (H : - msPerDay < 0 < msPerDay) by (unfold msPerDay; lia).
  split; [exact H |].
  exact (proj2 isBefore_isAfter_inverted 0 1793000000000 true (fun _ => NaN) H).
Defined.

(** C10.  For two instances that wrap valid instants exactly one of
    [isEqual], [isBefore] and [isAfter] is true: [isBefore] and [isAfter]
    are never both true, and both are false exactly when [isEqual] is
    true. *)
Theorem comparison_trichotomy (host : Host) (this other : NativeDate) :
  validInstant this -> validInstant other ->
  ((isEqual host this other = true /\ isBefore host this other = false
    /\ isAfter host this other = false)
   \/ (isEqual host this other = false /\ isBefore host this other = true
       /\ isAfter host this other = false)
   \/ (isEqual host this other = false /\ isBefore host this other = false
       /\ isAfter host this other = true))
  /\ (isBefore host this other && isAfter host this other = false)
  /\ (isBefore host this other = false /\ isAfter host this other = false
      <-> isEqual host this other = true).
Proof.
  intros Hthis Hother.
  destruct (fields_of_valid host this Hthis) as (y & m & d & Hy & Hm & Hd & _).
  destruct (fields_of_valid host other Hother) as (y' & m' & d' & Hy' & Hm' & Hd' & _).
  unfold isEqual, isBefore, isAfter.
  rewrite Hy, Hm, Hd, Hy', Hm', Hd'. unfold gt. cbn [strictEq lt].
  bool_cases; cbn; try lia; intuition (congruence || lia).
Qed.

Lemma comparison_trichotomy_witness :
  validInstant epochDay /\ validInstant nextDay
  /\ isBefore exampleUtc epochDay nextDay && isAfter exampleUtc epochDay nextDay = false.
Proof.
  assert (H1 : validInstant epochDay) by discriminate.
  assert (H2 : validInstant nextDay) by discriminate.
  split; [exact H1 | split; [exact H2 |]].
  exact (proj1 (proj2 (comparison_trichotomy exampleUtc epochDay nextDay H1 H2))).
Defined.

(* ================================================================== *)
(** * Arithmetic *)
(* ================================================================== *)

(** C1.  Local time UTC.  [addMonth (1)] on the instance of "2024-01-31"
    leaves it on 31 March 2024, two months on: [addMonth] hands the 1-based
    [month] plus [n] to the 0-based [setMonth].  On the instance of
    "2024-01-15", [addMonth (0)] moves to 15 February, while [addYear (0)]
    and [addDay (0)] stay on 15 January. *)
Theorem addMonth_off_by_one (now : Z) (carry : bool) (fallback : string -> number) :
  let host := utcHost now carry fallback in
  afterCall (nativeDateHelper host (VString "2024-01-31")) (addMonth host (Int 1))
    = Normal ({| isHealed := false;
                 generatedDate := Int 1711843200000;
                 dateString := "2024-03-31" |},
              VDate (Int 1711843200000))
  /\ isoAfter host (nativeDateHelper host (VString "2024-01-31")) (addMonth host (Int 1))
     = Normal "2024-03-31"
  /\ isoAfter host (nativeDateHelper host (VString "2024-01-15")) (addMonth host (Int 0))
     = Normal "2024-02-15"
  /\ isoAfter host (nativeDateHelper host (VString "2024-01-15")) (addYear host (Int 0))
     = Normal "2024-01-15"
  /\ isoAfter host (nativeDateHelper host (VString "2024-01-15")) (addDay host (Int 0))
     = Normal "2024-01-15".
Proof.
  destruct carry; repeat split; vm_compute; reflexivity.
Qed.

(** C7.  Local time five hours behind UTC.  The instance of "2024-03-01"
    holds the UTC midnight of 1 March, which is 29 February local time; the
    instance made from its [isoString] "2024-02-29" is on 28 February, and
    [isEqual] is false.  With local time UTC the same round trip is true. *)
Theorem roundtrip_fails_behind_utc (now : Z) (carry : bool) (fallback : string -> number) :
  let west := westHost now carry fallback in
  nativeDateHelper west (VString "2024-03-01")
    = Normal ({| isHealed := false;
                 generatedDate := Int 1709251200000;
                 dateString := "2024-03-01" |}, [])
  /\ isoOf west (nativeDateHelper west (VString "2024-03-01")) = Normal "2024-02-29"
  /\ roundTrip west "2024-03-01" = Normal false
  /\ roundTrip (utcHost now carry fallback) "2024-03-01" = Normal true.
Proof.
  destruct carry; repeat split; vm_compute; reflexivity.
Qed.

(** C8.  Local time a fixed offset at or ahead of UTC, by less than a day.
    After [subtractDay (1)] the instance of "2024-03-01" is on 29 February
    2024: its [isoString] and its [dateString] are "2024-02-29".  The call
    returns the native Date of that day. *)
Theorem subtractDay_leap_february
    (offset now : Z) (carry : bool) (fallback : string -> number) :
  0 <= offset < msPerDay ->
  let host := fixedZone offset now carry fallback in
  afterCall (nativeDateHelper host (VString "2024-03-01")) (subtractDay host (Int 1))
    = Normal ({| isHealed := false;
                 generatedDate := Int 1709164800000;
                 dateString := "2024-02-29" |},
              VDate (Int 1709164800000))
  /\ isoAfter host (nativeDateHelper host (VString "2024-03-01")) (subtractDay host (Int 1))
     = Normal "2024-02-29".
Proof.
  intros Hoff host.
  set (march := {| isHealed := false;
                   generatedDate := Int 1709251200000;
                   dateString := "2024-03-01" |}).
  set (february := {| isHealed := false;
                      generatedDate := Int 1709164800000;
                      dateString := "2024-02-29" |}).
  assert (Hnew : nativeDateHelper host (VString "2024-03-01") = Normal (march, []))
    by (destruct carry; vm_compute; reflexivity).
  assert (Hmarch : atMidnight (generatedDate march)) by reflexivity.
  assert (Hfeb : atMidnight (generatedDate february)) by reflexivity.
  assert (Hcall : subtractDay host (Int 1) march
                  = (february, VDate (Int 1709164800000))).
  { unfold host.
    rewrite (proj2 (proj2 (proj2 (proj2 (proj2
               (east_arithmetic offset now carry fallback Hoff (Int 1) march Hmarch)))))).
    destruct carry; vm_compute; reflexivity. }
  unfold isoAfter, afterCall. rewrite Hnew. cbn [bind fst]. rewrite Hcall.
  split; [reflexivity |]. cbn [bind fst]. unfold host.
  rewrite (proj2 (proj2 (proj2
             (east_fields offset now carry fallback Hoff february Hfeb)))).
  vm_compute. reflexivity.
Qed.

Lemma subtractDay_leap_february_witness :
  0 <= 3600000 < msPerDay
  /\ isoAfter (fixedZone 3600000 1793000000000 true (fun _ => NaN))
       (nativeDateHelper (fixedZone 3600000 1793000000000 true (fun _ => NaN))
                         (VString "2024-03-01"))
       (subtractDay (fixedZone 3600000 1793000000000 true (fun _ => NaN)) (Int 1))
     = Normal "2024-02-29".
Proof.
  assert (H : 0 <= 3600000 < msPerDay) by (unfold msPerDay; lia).
  split; [exact H |].
  exact (proj2 (subtractDay_leap_february
                  3600000 1793000000000 true (fun _ => NaN) H)).
Defined.

(** C8, as stated, fails: [subtractDay] returns the native Date held in
    [generatedDate], and reading [isoString] from it gives undefined, not
    "2024-02-29".  Five hours behind UTC the instance itself is not on
    29 February after the call either, but on the 27th. *)
Lemma subtractDay_result_has_no_isoString :
  (r <- afterCall (nativeDateHelper exampleUtc (VString "2024-03-01"))
                  (subtractDay exampleUtc (Int 1)) ;;
   readIsoString (snd r))
  = Normal VUndefined
  /\ (r <- afterCall (nativeDateHelper exampleUtc (VString "2024-03-01"))
                     (subtractDay exampleUtc (Int 1)) ;;
      readIsoString (snd r))
     <> Normal (VString "2024-02-29")
  /\ isoAfter exampleWest (nativeDateHelper exampleWest (VString "2024-03-01"))
                          (subtractDay exampleWest (Int 1))
     = Normal "2024-02-27".
Proof.
  split; [| split]; vm_compute; reflexivity || discriminate.
Qed.

(* ================================================================== *)
(** * The calendar, both ways *)
(* ================================================================== *)

Lemma YearFromTime_unique (t y : Z) :
  DayFromYear y <= Day t < DayFromYear (y + 1) -> YearFromTime t = y.
Proof.
  intros [Hlo Hhi]. pose proof (YearFromTime_day t) as [Ylo Yhi].
  destruct (Z.lt_trichotomy (YearFromTime t) y) as [H | [H | H]]; [| exact H |].
  - pose proof (DayFromYear_mono (YearFromTime t + 1) y). lia.
  - pose proof (DayFromYear_mono (y + 1) (YearFromTime t)). lia.
Qed.

Lemma LeapDays_range (y : Z) :
  (LeapDays y = 0 /\ DaysInYear y = 365) \/ (LeapDays y = 1 /\ DaysInYear y = 366).
Proof.
  unfold LeapDays. destruct (DaysInYear_range y) as [E | E]; rewrite E; cbn; auto.
Qed.

Ltac month_cases mn :=
  let H := fresh in
  assert (H : mn = 0 \/ mn = 1 \/ mn = 2 \/ mn = 3 \/ mn = 4 \/ mn = 5 \/ mn = 6
              \/ mn = 7 \/ mn = 8 \/ mn = 9 \/ mn = 10 \/ mn = 11) by lia;
  destruct H as [H | [H | [H | [H | [H | [H | [H | [H | [H | [H | [H | H]]]]]]]]]]];
  rewrite H in *; clear H.

(** The day on which a calendar date falls has that date as its fields. *)
Lemma fields_of_civil (t y mn d : Z) :
  0 <= mn <= 11 -> 1 <= d <= DaysInMonth y (mn + 1) ->
  Day t = DayFromYear y + MonthStart mn (LeapDays y) + d - 1 ->
  YearFromTime t = y /\ MonthFromTime t = mn /\ DateFromTime t = d.
Proof.
  intros Hmn Hd Hday. unfold DaysInMonth in Hd.
  assert (Hy : YearFromTime t = y).
  { apply YearFromTime_unique. rewrite DayFromYear_next, Hday.
    generalize (DayFromYear y). intros first.
    destruct (LeapDays_range y) as [[El Ey] | [El Ey]]; rewrite El, Ey in *;
      month_cases mn; cbn in Hd |- *; lia. }
  unfold DateFromTime, MonthFromTime, InLeapYear, DayWithinYear.
  rewrite Hy, Hday. split; [reflexivity |].
  generalize (DayFromYear y). intros first.
  destruct (LeapDays_range y) as [[El Ey] | [El Ey]]; rewrite El in *;
    month_cases mn; cbn in Hd |- *; bool_cases; try lia; split; lia.
Qed.

(** The fields of a time value name the day it falls on, and the date is
    one the month has. *)
Lemma civil_of_fields (t : Z) :
  Day t = DayFromYear (YearFromTime t)
          + MonthStart (MonthFromTime t) (LeapDays (YearFromTime t))
          + DateFromTime t - 1
  /\ 1 <= DateFromTime t <= DaysInMonth (YearFromTime t) (MonthFromTime t + 1).
Proof.
  pose proof (DayWithinYear_range t) as Hd.
  unfold DateFromTime, MonthFromTime, InLeapYear, DayWithinYear in *.
  unfold DaysInMonth.
  set (y := YearFromTime t) in *. set (D := Day t) in *.
  generalize dependent (DayFromYear y). intros first Hd.
  destruct (LeapDays_range y) as [[El Ey] | [El Ey]]; rewrite El in *;
    bool_cases; cbn; lia.
Qed.

(* ================================================================== *)
(** * The class's calendar and the native one *)
(* ================================================================== *)

Lemma isLeapYear_native (y : Z) :
  isLeapYear (Int y) = (DaysInYear y =? 366).
Proof.
  unfold isLeapYear, DaysInYear. cbn.
  assert (H4 : Z.rem y 4 = 0 <-> y mod 4 = 0)
    by (rewrite Z.rem_divide, Z.mod_divide by discriminate; reflexivity).
  assert (H100 : Z.rem y 100 = 0 <-> y mod 100 = 0)
    by (rewrite Z.rem_divide, Z.mod_divide by discriminate; reflexivity).
  assert (H400 : Z.rem y 400 = 0 <-> y mod 400 = 0)
    by (rewrite Z.rem_divide, Z.mod_divide by discriminate; reflexivity).
  assert (Hdiv : y mod 400 = 0 -> y mod 100 = 0 /\ y mod 4 = 0)
    by (intros; Z.div_mod_to_equations; lia).
  destruct (Z.eqb_spec (y mod 4) 0), (Z.eqb_spec (y mod 100) 0),
    (Z.eqb_spec (y mod 400) 0), (Z.eqb_spec (Z.rem y 4) 0),
    (Z.eqb_spec (Z.rem y 100) 0), (Z.eqb_spec (Z.rem y 400) 0);
    cbn; try reflexivity; tauto.
Qed.

Lemma daysInMonth_native (m y : Z) :
  daysInMonth (Int m) (Int y) = Int (DaysInMonth y m).
Proof.
  unfold daysInMonth, DaysInMonth, LeapDays. rewrite isLeapYear_native.
  destruct m as [|p|p]; try reflexivity.
  do 4 (try destruct p as [p|p|]); try reflexivity.
  destruct (DaysInYear y =? 366); reflexivity.
Qed.

(** On a native Date the month and day checks of [isValidDate] always
    pass. *)
Lemma isValidDate_native (host : Host) (this : NativeDate) :
  isValidDate host this = true <-> validInstant this.
Proof.
  unfold validInstant. split.
  - intros H E. destruct (fields_of_invalid host this E) as (_ & Hm & _).
    unfold isValidDate, validDateCheck in H. rewrite Hm, E in H. discriminate.
  - intros H. unfold isValidDate, validDateCheck, year, month, day, date.
    destruct (generatedDate this) as [|t]; [congruence |].
    cbn [truthy typeof negb orb andb String.eqb Ascii.eqb Bool.eqb
         getFullYear getMonth getDate add].
    rewrite daysInMonth_native.
    pose proof (MonthFromTime_range (LocalTime host t)).
    destruct (civil_of_fields (LocalTime host t)) as [_ Hd].
    unfold ge, gt. cbn [le lt].
    rewrite !andb_true_iff, !Z.leb_le, Z.ltb_lt. lia.
Qed.

(** X11.  [isValidDate] is true on every instance that wraps a valid instant and
    false on an Invalid Date: the fields a native Date reports are always
    a month of 1..12 and a day that month has. *)
Theorem isValidDate_iff_validInstant (host : Host) (this : NativeDate) :
  isValidDate host this = true <-> validInstant this.
Proof.
  exact (isValidDate_native host this).
Qed.

(* ================================================================== *)
(** * Comparison is comparison of local calendar days *)
(* ================================================================== *)

Lemma MonthStart_next (mn leap y : Z) :
  0 <= mn <= 10 -> leap = LeapDays y ->
  MonthStart (mn + 1) leap = MonthStart mn leap + DaysInMonth y (mn + 1).
Proof.
  intros H ->. unfold DaysInMonth. generalize (LeapDays y). intros leap.
  assert (Hc : mn = 0 \/ mn = 1 \/ mn = 2 \/ mn = 3 \/ mn = 4 \/ mn = 5 \/ mn = 6
               \/ mn = 7 \/ mn = 8 \/ mn = 9 \/ mn = 10) by lia.
  destruct Hc as [-> | [-> | [-> | [-> | [-> | [-> | [-> | [-> | [-> | [-> | ->]]]]]]]]]];
    match goal with
    | |- context [?a + 1] =>
        let v := eval vm_compute in (a + 1) in change (a + 1) with v
    end;
    cbv beta iota delta [MonthStart]; lia.
Qed.

Lemma MonthStart_mono (mn mn' leap : Z) :
  0 <= mn <= mn' -> mn' <= 11 -> 0 <= leap <= 1 ->
  MonthStart mn leap <= MonthStart mn' leap.
Proof.
  intros H H' Hl.
  month_cases mn; month_cases mn'; cbv beta iota delta [MonthStart]; lia.
Qed.

(** A later year, or the same year and a later month, or the same month
    and a later date, is a later day. *)
Lemma fields_increase (t t' : Z) :
  YearFromTime t < YearFromTime t'
  \/ (YearFromTime t = YearFromTime t' /\ MonthFromTime t < MonthFromTime t')
  \/ (YearFromTime t = YearFromTime t' /\ MonthFromTime t = MonthFromTime t'
      /\ DateFromTime t < DateFromTime t') ->
  Day t < Day t'.
Proof.
  intros H.
  destruct (civil_of_fields t) as [E Hd], (civil_of_fields t') as [E' Hd'].
  pose proof (MonthFromTime_range t) as Hm.
  pose proof (MonthFromTime_range t') as Hm'.
  destruct H as [Hy | [[Hy Hmn] | (Hy & Hmn & Hdt)]].
  - pose proof (YearFromTime_day t) as [_ Hhi].
    pose proof (YearFromTime_day t') as [Hlo _].
    pose proof (DayFromYear_mono (YearFromTime t + 1) (YearFromTime t')). lia.
  - rewrite E, E', <- Hy.
    assert (Hl : 0 <= LeapDays (YearFromTime t) <= 1)
      by (destruct (LeapDays_range (YearFromTime t)) as [[-> _] | [-> _]]; lia).
    pose proof (MonthStart_next (MonthFromTime t) _ (YearFromTime t)
                  ltac:(lia) eq_refl) as Hnext.
    pose proof (MonthStart_mono (MonthFromTime t + 1) (MonthFromTime t')
                  (LeapDays (YearFromTime t)) ltac:(lia) ltac:(lia) Hl).
    rewrite <- Hy in Hd'. lia.
  - rewrite E, E', <- Hy, <- Hmn. lia.
Qed.

(** The three comparisons order the local calendar days. *)
Lemma local_day_comparison (host : Host) (this other : NativeDate) (t t' : Z) :
  generatedDate this = Int t -> generatedDate other = Int t' ->
  (isEqual host this other = true
     <-> Day (LocalTime host t) = Day (LocalTime host t'))
  /\ (isBefore host this other = true
        <-> Day (LocalTime host t) > Day (LocalTime host t'))
  /\ (isAfter host this other = true
        <-> Day (LocalTime host t) < Day (LocalTime host t')).
Proof.
  intros Ht Ht'.
  set (l := LocalTime host t). set (l' := LocalTime host t').
  pose proof (fields_increase l l') as Hlt.
  pose proof (fields_increase l' l) as Hgt.
  assert (Heq : YearFromTime l = YearFromTime l' -> MonthFromTime l = MonthFromTime l'
                -> DateFromTime l = DateFromTime l' -> Day l = Day l').
  { intros Ey Em Ed.
    destruct (civil_of_fields l) as [E _], (civil_of_fields l') as [E' _].
    rewrite E, E', Ey, Em, Ed. reflexivity. }
  assert (Hsame : Day l = Day l' ->
                  YearFromTime l = YearFromTime l'
                  /\ MonthFromTime l = MonthFromTime l'
                  /\ DateFromTime l = DateFromTime l')
    by apply fields_by_day.
  unfold isEqual, isBefore, isAfter, year, month, day. rewrite Ht, Ht'.
  cbn [getFullYear getMonth getDate add]. fold l l'. unfold gt.
  cbn [strictEq lt].
  generalize dependent (YearFromTime l). generalize dependent (YearFromTime l').
  generalize dependent (MonthFromTime l). generalize dependent (MonthFromTime l').
  generalize dependent (DateFromTime l). generalize dependent (DateFromTime l').
  intros d' d m' m y' y Hlt Hgt Heq Hsame.
  repeat split; bool_cases; cbn; intros; try lia; try discriminate; try reflexivity.
Qed.

(** X12.  For two valid instants: [isEqual] when they fall on the same local
    calendar day, [isBefore] when [this] falls on the later day, [isAfter]
    when it falls on the earlier one. *)
Theorem comparison_by_local_day (host : Host) (this other : NativeDate) (t t' : Z) :
  generatedDate this = Int t -> generatedDate other = Int t' ->
  (isEqual host this other = true
     <-> Day (LocalTime host t) = Day (LocalTime host t'))
  /\ (isBefore host this other = true
        <-> Day (LocalTime host t) > Day (LocalTime host t'))
  /\ (isAfter host this other = true
        <-> Day (LocalTime host t) < Day (LocalTime host t')).
Proof.
  exact (local_day_comparison host this other t t').
Qed.

(* ================================================================== *)
(** * The language of a regular expression *)
(* ================================================================== *)

Lemma In_allAscii (c : ascii) : In c allAscii.
Proof.
  unfold allAscii. apply in_map_iff. exists (nat_of_ascii c). split.
  - apply ascii_nat_embedding.
  - apply in_seq. pose proof (nat_ascii_bounded c). lia.
Qed.

Lemma In_lang_Class (p : ascii -> bool) (s : string) :
  In s (lang (Class p)) <-> exists c, s = String c EmptyString /\ p c = true.
Proof.
  cbn [lang]. rewrite in_map_iff. split.
  - intros (c & <- & H). apply filter_In in H. exists c. tauto.
  - intros (c & -> & H). exists c. split; [reflexivity |].
    apply filter_In. split; [apply In_allAscii | exact H].
Qed.

Lemma In_lang_Seq (a b : regex) (s : string) :
  In s (lang (Seq a b))
  <-> exists x y, s = (x ++ y)%string /\ In x (lang a) /\ In y (lang b).
Proof.
  cbn [lang]. rewrite in_flat_map. split.
  - intros (x & Hx & H). apply in_map_iff in H. destruct H as (y & <- & Hy).
    exists x, y. auto.
  - intros (x & y & -> & Hx & Hy). exists x. split; [exact Hx |].
    apply in_map_iff. exists y. auto.
Qed.

Lemma nullable_lang (r : regex) : nullable r = true <-> In EmptyString (lang r).
Proof.
  induction r as [| | p | a IHa b IHb | a IHa b IHb].
  - cbn. split; [discriminate | tauto].
  - cbn. split; auto.
  - rewrite In_lang_Class. cbn. split; [discriminate |].
    intros (c & H & _). discriminate.
  - rewrite In_lang_Seq. cbn [nullable]. rewrite andb_true_iff, IHa, IHb. split.
    + intros [Ha Hb]. exists EmptyString, EmptyString. auto.
    + intros (x & y & E & Hx & Hy).
      destruct x; [| discriminate]. destruct y; [| discriminate]. auto.
  - cbn [nullable lang]. rewrite orb_true_iff, in_app_iff, IHa, IHb. reflexivity.
Qed.

Lemma deriv_lang (r : regex) (c : ascii) (s : string) :
  In s (lang (deriv c r)) <-> In (String c s) (lang r).
Proof.
  revert s. induction r as [| | p | a IHa b IHb | a IHa b IHb]; intros s.
  - cbn. tauto.
  - cbn. split; [tauto | intros [H | []]; discriminate].
  - rewrite In_lang_Class. cbn [deriv]. destruct (p c) eqn:Hp.
    + cbn. split.
      * intros [<- | []]. exists c. auto.
      * intros (c' & E & _). injection E as _ ->. auto.
    + cbn. split; [tauto |].
      intros (c' & E & Hp'). injection E as -> _. congruence.
  - rewrite In_lang_Seq. cbn [deriv].
    assert (Hstep : In s (lang (Seq (deriv c a) b))
                    <-> exists x y, String c s = (String c x ++ y)%string
                                    /\ In (String c x) (lang a) /\ In y (lang b)).
    { rewrite In_lang_Seq. split.
      - intros (x & y & -> & Hx & Hy). exists x, y. rewrite <- IHa. auto.
      - intros (x & y & E & Hx & Hy). injection E as ->.
        exists x, y. rewrite IHa. auto. }
    destruct (nullable a) eqn:Hn.
    + cbn [lang]. rewrite in_app_iff, Hstep, IHb. split.
      * intros [(x & y & E & Hx & Hy) | H].
        -- exists (String c x), y. auto.
        -- exists EmptyString, (String c s). rewrite <- nullable_lang. auto.
      * intros (x & y & E & Hx & Hy). destruct x as [|c' x].
        -- right. cbn in E. subst y. exact Hy.
        -- left. injection E as <- ->. exists x, y. auto.
    + rewrite Hstep. split.
      * intros (x & y & E & Hx & Hy). exists (String c x), y. auto.
      * intros (x & y & E & Hx & Hy). destruct x as [|c' x].
        -- apply nullable_lang in Hx. congruence.
        -- injection E as <- ->. exists x, y. auto.
  - cbn [deriv lang]. rewrite !in_app_iff, IHa, IHb. reflexivity.
Qed.

(** The derivative matcher accepts exactly the strings of the language. *)
Lemma test_lang (r : regex) (s : string) : test r s = true <-> In s (lang r).
Proof.
  revert r. induction s as [|c s IH]; intros r; cbn [test].
  - apply nullable_lang.
  - rewrite IH. apply deriv_lang.
Qed.

(* ================================================================== *)
(** * The grammar of [isIso] *)
(* ================================================================== *)

Lemma app_assoc_s (a b c : string) : ((a ++ b) ++ c = a ++ (b ++ c))%string.
Proof.
  induction a as [|x a IH]; cbn; [reflexivity | now rewrite IH].
Qed.

Lemma lang_hyphen (s : string) : In s (lang (chr "-")) <-> s = "-".
Proof.
  assert (E : lang (chr "-") = ["-"]) by (vm_compute; reflexivity).
  rewrite E. cbn. intuition congruence.
Qed.

Lemma isoRegex_fields (s : string) :
  In s (lang isoRegex)
  <-> exists sy sm sd,
        s = sy ++ "-" ++ sm ++ "-" ++ sd
        /\ In sy (lang yearRegex) /\ In sm (lang monthRegex) /\ In sd (lang dayRegex).
Proof.
  change isoRegex with
    (Seq (range "1" "2") (Seq digit (Seq digit (Seq digit
       (Seq (chr "-") (Seq monthRegex (Seq (chr "-") dayRegex))))))).
  unfold yearRegex. split.
  - intros H.
    apply In_lang_Seq in H. destruct H as (c1 & r1 & -> & H1 & H).
    apply In_lang_Seq in H. destruct H as (c2 & r2 & -> & H2 & H).
    apply In_lang_Seq in H. destruct H as (c3 & r3 & -> & H3 & H).
    apply In_lang_Seq in H. destruct H as (c4 & r4 & -> & H4 & H).
    apply In_lang_Seq in H. destruct H as (h & r5 & -> & Hh & H).
    apply In_lang_Seq in H. destruct H as (sm & r6 & -> & Hm & H).
    apply In_lang_Seq in H. destruct H as (h' & sd & -> & Hh' & Hd).
    apply lang_hyphen in Hh, Hh'. subst h h'.
    exists (c1 ++ c2 ++ c3 ++ c4)%string, sm, sd.
    split; [now rewrite !app_assoc_s |].
    split; [| split; assumption].
    apply In_lang_Seq. exists c1, (c2 ++ c3 ++ c4)%string.
    split; [reflexivity | split; [assumption |]].
    apply In_lang_Seq. exists c2, (c3 ++ c4)%string.
    split; [reflexivity | split; [assumption |]].
    apply In_lang_Seq. exists c3, c4.
    split; [reflexivity | split; assumption].
  - intros (sy & sm & sd & -> & Hy & Hm & Hd).
    apply In_lang_Seq in Hy. destruct Hy as (c1 & r1 & -> & H1 & H).
    apply In_lang_Seq in H. destruct H as (c2 & r2 & -> & H2 & H).
    apply In_lang_Seq in H. destruct H as (c3 & c4 & -> & H3 & H4).
    rewrite !app_assoc_s.
    repeat (apply In_lang_Seq; eexists _, _; split; [reflexivity |];
            split; [first [assumption | apply lang_hyphen; reflexivity] |]).
    assumption.
Qed.

Lemma forallb_In {A : Type} (p : A -> bool) (l : list A) (x : A) :
  forallb p l = true -> In x l -> p x = true.
Proof.
  intros H. apply (proj1 (forallb_forall p l) H).
Qed.

(** The year field: the numbers 1000 to 2999, printed. *)
Lemma yearRegex_numbers (sy : string) :
  In sy (lang yearRegex)
  <-> exists y, 1000 <= y <= 2999 /\ sy = toString (Int y).
Proof.
  split.
  - intros H.
    assert (C : forallb (fun s => match yearField false s with
                                  | Some y => (1000 <=? y) && (y <=? 2999)
                                              && (toString (Int y) =? s)%string
                                  | None => false
                                  end) (lang yearRegex) = true)
      by (vm_compute; reflexivity).
    pose proof (forallb_In _ _ _ C H) as Hs. cbv beta in Hs.
    destruct (yearField false sy) as [y |]; [| discriminate].
    apply andb_prop in Hs. destruct Hs as [Hr He].
    apply andb_prop in Hr. destruct Hr as [Hlo Hhi].
    apply String.eqb_eq in He. exists y. split; [lia | congruence].
  - intros (y & Hy & ->). apply test_lang.
    apply (zrange_all (fun z => test yearRegex (toString (Int z))) 1000 2999);
      [vm_compute; reflexivity | exact Hy].
Qed.

(** The month and day fields: 1 to 12 and 1 to 31, printed with or without
    a leading zero. *)
Lemma monthRegex_numbers (sm : string) :
  In sm (lang monthRegex)
  <-> exists m zero, 1 <= m <= 12 /\ sm = fieldForm zero m.
Proof.
  split.
  - intros H.
    assert (C : forallb (fun s => existsb (fun m => (s =? fieldForm true m)%string
                                                    || (s =? fieldForm false m)%string)
                                          (zrange 1 12))
                        (lang monthRegex) = true)
      by (vm_compute; reflexivity).
    pose proof (forallb_In _ _ _ C H) as Hs. cbv beta in Hs.
    apply existsb_exists in Hs. destruct Hs as (m & Hin & Hm).
    assert (Hr : 1 <= m <= 12).
    { unfold zrange in Hin. apply in_map_iff in Hin.
      destruct Hin as (i & <- & Hi). apply in_seq in Hi. lia. }
    apply orb_prop in Hm.
    destruct Hm as [E | E]; apply String.eqb_eq in E;
      [exists m, true | exists m, false]; split; assumption.
  - intros (m & zero & Hm & ->). apply test_lang.
    pose proof (zrange_all (fun z => test monthRegex (fieldForm true z)
                                     && test monthRegex (fieldForm false z)) 1 12
                  ltac:(vm_compute; reflexivity) m Hm) as C.
    cbv beta in C. apply andb_prop in C. destruct zero; tauto.
Qed.

Lemma dayRegex_numbers (sd : string) :
  In sd (lang dayRegex)
  <-> exists d zero, 1 <= d <= 31 /\ sd = fieldForm zero d.
Proof.
  split.
  - intros H.
    assert (C : forallb (fun s => existsb (fun d => (s =? fieldForm true d)%string
                                                    || (s =? fieldForm false d)%string)
                                          (zrange 1 31))
                        (lang dayRegex) = true)
      by (vm_compute; reflexivity).
    pose proof (forallb_In _ _ _ C H) as Hs. cbv beta in Hs.
    apply existsb_exists in Hs. destruct Hs as (d & Hin & Hd).
    assert (Hr : 1 <= d <= 31).
    { unfold zrange in Hin. apply in_map_iff in Hin.
      destruct Hin as (i & <- & Hi). apply in_seq in Hi. lia. }
    apply orb_prop in Hd.
    destruct Hd as [E | E]; apply String.eqb_eq in E;
      [exists d, true | exists d, false]; split; assumption.
  - intros (d & zero & Hd & ->). apply test_lang.
    pose proof (zrange_all (fun z => test dayRegex (fieldForm true z)
                                     && test dayRegex (fieldForm false z)) 1 31
                  ltac:(vm_compute; reflexivity) d Hd) as C.
    cbv beta in C. apply andb_prop in C. destruct zero; tauto.
Qed.

(** What [isoRegex] accepts, as numbers. *)
Lemma isIso_accepts (s : string) :
  isIso (VString s) = true
  <-> exists y m d zm zd,
        1000 <= y <= 2999 /\ 1 <= m <= 12 /\ 1 <= d <= 31
        /\ s = toString (Int y) ++ "-" ++ fieldForm zm m ++ "-" ++ fieldForm zd d.
Proof.
  cbn [isIso]. split.
  - destruct (String.eqb_spec s "") as [-> | _]; [discriminate |].
    intros H. apply test_lang, isoRegex_fields in H.
    destruct H as (sy & sm & sd & -> & Hy & Hm & Hd).
    apply yearRegex_numbers in Hy. destruct Hy as (y & Hy & ->).
    apply monthRegex_numbers in Hm. destruct Hm as (m & zm & Hm & ->).
    apply dayRegex_numbers in Hd. destruct Hd as (d & zd & Hd & ->).
    exists y, m, d, zm, zd. auto.
  - intros (y & m & d & zm & zd & Hy & Hm & Hd & ->).
    assert (Ht : test isoRegex
                   (toString (Int y) ++ "-" ++ fieldForm zm m ++ "-" ++ fieldForm zd d)
                 = true).
    { apply test_lang, isoRegex_fields. eexists _, _, _. split; [reflexivity |].
      split; [apply yearRegex_numbers; exists y; auto |].
      split; [apply monthRegex_numbers; exists m, zm; auto |].
      apply dayRegex_numbers; exists d, zd; auto. }
    rewrite Ht. destruct (toString (Int y)); reflexivity.
Qed.

(** X1.  [isIso] accepts exactly the strings Y-M-D with a year of 1000 to 2999,
    a month of 1 to 12 and a day of 1 to 31, month and day each with or
    without a leading zero; the day is not checked against the month. *)
Theorem isIso_grammar (s : string) :
  isIso (VString s) = true
  <-> exists y m d zm zd,
        1000 <= y <= 2999 /\ 1 <= m <= 12 /\ 1 <= d <= 31
        /\ s = toString (Int y) ++ "-" ++ fieldForm zm m ++ "-" ++ fieldForm zd d.
Proof.
  exact (isIso_accepts s).
Qed.

(* ================================================================== *)
(** * Splitting, padding and joining *)
(* ================================================================== *)

Lemma length_app_s (a b : string) :
  String.length (a ++ b) = (String.length a + String.length b)%nat.
Proof.
  induction a as [|c a IH]; cbn; [reflexivity | now rewrite IH].
Qed.

Lemma noHyphen_app (a b : string) :
  noHyphen (a ++ b) = noHyphen a && noHyphen b.
Proof.
  induction a as [|c a IH]; cbn; [reflexivity |].
  rewrite IH. now rewrite andb_assoc.
Qed.

Lemma split_noHyphen (s : string) :
  noHyphen s = true -> split "-" s = [s].
Proof.
  induction s as [|c s IH]; cbn; [reflexivity |].
  intros H. apply andb_prop in H. destruct H as [Hc Hs].
  destruct (Ascii.eqb c "-"); [discriminate |]. now rewrite (IH Hs).
Qed.

Lemma split_app (a rest : string) :
  noHyphen a = true ->
  split "-" (a ++ String "-" rest) = a :: split "-" rest.
Proof.
  induction a as [|c a IH]; cbn; [reflexivity |].
  intros H. apply andb_prop in H. destruct H as [Hc Ha].
  destruct (Ascii.eqb c "-"); [discriminate |]. now rewrite (IH Ha).
Qed.

Lemma split_items (s : string) :
  Forall (fun item => noHyphen item = true) (split "-" s).
Proof.
  induction s as [|c s IH]; cbn; [repeat constructor |].
  destruct (Ascii.eqb c "-") eqn:E; [constructor; [reflexivity | exact IH] |].
  destruct (split "-" s) as [|item items]; [repeat constructor; cbn; now rewrite E |].
  inversion IH as [| ? ? Hi Hr]; subst. constructor; [| exact Hr].
  cbn. now rewrite E, Hi.
Qed.

Lemma split_join (items : list string) :
  items <> [] -> Forall (fun item => noHyphen item = true) items ->
  split "-" (join "-" items) = items.
Proof.
  unfold join. induction items as [|x [|y rest] IH]; intros Hne Hall.
  - congruence.
  - cbn. inversion Hall; subst. now apply split_noHyphen.
  - inversion Hall as [| ? ? Hx Hr]; subst.
    change (String.concat "-" (x :: y :: rest))
      with (x ++ String "-" (String.concat "-" (y :: rest)))%string.
    rewrite split_app by exact Hx. f_equal. apply IH; [discriminate | exact Hr].
Qed.

Lemma zeroPad_noHyphen (item : string) :
  noHyphen item = true -> noHyphen (zeroPad item) = true.
Proof.
  unfold zeroPad. destruct (strlen item =? 1); [| auto]. cbn. auto.
Qed.

Lemma zeroPad_idempotent (item : string) : zeroPad (zeroPad item) = zeroPad item.
Proof.
  unfold zeroPad. destruct (Z.eqb_spec (strlen item) 1) as [E | E].
  - destruct (Z.eqb_spec (strlen ("0" ++ item)) 1) as [E' |]; [| reflexivity].
    unfold strlen in *. cbn [append String.length] in E'. lia.
  - destruct (Z.eqb_spec (strlen item) 1); [contradiction | reflexivity].
Qed.

Lemma addLeadingZeros_unfold (s : string) :
  addLeadingZeros s
  = if strlen s =? 10 then s else join "-" (map zeroPad (split "-" s)).
Proof.
  reflexivity.
Qed.

(** X2.  Padding a padded string changes nothing more. *)
Theorem addLeadingZeros_idempotent (s : string) :
  addLeadingZeros (addLeadingZeros s) = addLeadingZeros s.
Proof.
  destruct (strlen s =? 10) eqn:E.
  - assert (H : addLeadingZeros s = s) by (rewrite addLeadingZeros_unfold, E; reflexivity).
    now rewrite !H.
  - assert (H : addLeadingZeros s = join "-" (map zeroPad (split "-" s)))
      by (rewrite addLeadingZeros_unfold, E; reflexivity).
    rewrite H. set (r := join "-" (map zeroPad (split "-" s))) in *.
    rewrite addLeadingZeros_unfold. destruct (strlen r =? 10); [reflexivity |].
    unfold r. rewrite split_join.
    + rewrite map_map. f_equal. apply map_ext. intros. apply zeroPad_idempotent.
    + pose proof (split_nonempty "-" s).
      destruct (split "-" s); [congruence | discriminate].
    + apply Forall_map. eapply Forall_impl; [| apply split_items].
      intros item. apply zeroPad_noHyphen.
Qed.

(** The padding of a year of four characters, a month and a day of one or
    two: the year is kept, month and day are padded. *)
Lemma addLeadingZeros_fields (sy sm sd : string) :
  noHyphen sy = true -> noHyphen sm = true -> noHyphen sd = true ->
  String.length sy = 4%nat ->
  (1 <= String.length sm <= 2)%nat -> (1 <= String.length sd <= 2)%nat ->
  addLeadingZeros (sy ++ "-" ++ sm ++ "-" ++ sd)
  = sy ++ "-" ++ zeroPad sm ++ "-" ++ zeroPad sd.
Proof.
  intros Hy Hm Hd Ly Lm Ld. rewrite addLeadingZeros_unfold.
  assert (Hlen : strlen (sy ++ "-" ++ sm ++ "-" ++ sd)
                 = 6 + Z.of_nat (String.length sm) + Z.of_nat (String.length sd)).
  { unfold strlen. rewrite !length_app_s. cbn [String.length]. lia. }
  rewrite Hlen.
  destruct (Z.eqb_spec (6 + Z.of_nat (String.length sm) + Z.of_nat (String.length sd)) 10)
    as [E | E].
  - unfold zeroPad, strlen.
    replace (Z.of_nat (String.length sm) =? 1) with false by (symmetry; apply Z.eqb_neq; lia).
    replace (Z.of_nat (String.length sd) =? 1) with false by (symmetry; apply Z.eqb_neq; lia).
    reflexivity.
  - change (sy ++ "-" ++ sm ++ "-" ++ sd)%string
      with (sy ++ String "-" (sm ++ String "-" sd))%string.
    rewrite !split_app, split_noHyphen by assumption.
    cbn [map join String.concat].
    replace (zeroPad sy) with sy; [reflexivity |].
    unfold zeroPad, strlen. rewrite Ly. reflexivity.
Qed.

(* ================================================================== *)
(** * Printing and parsing the fields *)
(* ================================================================== *)

Lemma year_text (y : Z) :
  1000 <= y <= 9999 ->
  noHyphen (toString (Int y)) = true
  /\ String.length (toString (Int y)) = 4%nat
  /\ yearField false (toString (Int y)) = Some y.
Proof.
  intros H.
  pose proof (zrange_all
                (fun z => noHyphen (toString (Int z))
                          && (String.length (toString (Int z)) =? 4)%nat
                          && match yearField false (toString (Int z)) with
                             | Some v => v =? z
                             | None => false
                             end) 1000 9999 ltac:(vm_compute; reflexivity) y H) as C.
  cbv beta in C. apply andb_prop in C. destruct C as [C Hf].
  apply andb_prop in C. destruct C as [Hn Hl].
  apply Nat.eqb_eq in Hl.
  destruct (yearField false (toString (Int y))) as [v |]; [| discriminate].
  apply Z.eqb_eq in Hf. subst v. auto.
Qed.

Lemma field_text (n : Z) (zero : bool) :
  1 <= n <= 31 ->
  noHyphen (fieldForm zero n) = true
  /\ (1 <= String.length (fieldForm zero n) <= 2)%nat
  /\ zeroPad (fieldForm zero n) = fieldForm true n
  /\ String.length (fieldForm true n) = 2%nat
  /\ field 2 (fieldForm true n) = Some n.
Proof.
  intros H.
  pose proof (zrange_all
                (fun z => forallb (fun b =>
                            noHyphen (fieldForm b z)
                            && (1 <=? String.length (fieldForm b z))%nat
                            && (String.length (fieldForm b z) <=? 2)%nat
                            && (zeroPad (fieldForm b z) =? fieldForm true z)%string
                            && (String.length (fieldForm true z) =? 2)%nat
                            && match field 2 (fieldForm true z) with
                               | Some v => v =? z
                               | None => false
                               end) [true; false])
                1 31 ltac:(vm_compute; reflexivity) n H) as C.
  cbv beta in C.
  assert (Hb : In zero [true; false]) by (destruct zero; cbn; auto).
  pose proof (forallb_In _ _ _ C Hb) as Cz. cbv beta in Cz.
  repeat (apply andb_prop in Cz; destruct Cz as [Cz ?]).
  destruct (field 2 (fieldForm true n)) as [v |]; [| discriminate].
  repeat match goal with
         | H : (_ =? _)%nat = true |- _ => apply Nat.eqb_eq in H
         | H : (_ <=? _)%nat = true |- _ => apply Nat.leb_le in H
         | H : (_ =? _)%string = true |- _ => apply String.eqb_eq in H
         | H : (_ =? _) = true |- _ => apply Z.eqb_eq in H
         end.
  subst v. repeat split; auto.
Qed.

(** The text an accepted string is padded to: the year, and month and day
    in two digits. *)
Lemma addLeadingZeros_accepted (y m d : Z) (zm zd : bool) :
  1000 <= y <= 9999 -> 1 <= m <= 31 -> 1 <= d <= 31 ->
  addLeadingZeros (toString (Int y) ++ "-" ++ fieldForm zm m ++ "-" ++ fieldForm zd d)
  = toString (Int y) ++ "-" ++ fieldForm true m ++ "-" ++ fieldForm true d.
Proof.
  intros Hy Hm Hd.
  destruct (year_text y Hy) as (Ny & Ly & _).
  destruct (field_text m zm Hm) as (Nm & Lm & Pm & _).
  destruct (field_text d zd Hd) as (Nd & Ld & Pd & _).
  rewrite addLeadingZeros_fields by assumption. now rewrite Pm, Pd.
Qed.

(** [toIso] of a four-digit year, a month and a day, written out. *)
Lemma toIso_text (y m d : Z) :
  1000 <= y <= 9999 -> 1 <= m <= 31 -> 1 <= d <= 31 ->
  toIso (Int y) (Int m) (Int d)
  = toString (Int y) ++ "-" ++ fieldForm true m ++ "-" ++ fieldForm true d.
Proof.
  intros Hy Hm Hd. exact (addLeadingZeros_accepted y m d false false Hy Hm Hd).
Qed.

Lemma split_toIso (y m d : Z) :
  1000 <= y <= 9999 -> 1 <= m <= 31 -> 1 <= d <= 31 ->
  split "-" (toIso (Int y) (Int m) (Int d))
  = [toString (Int y); fieldForm true m; fieldForm true d].
Proof.
  intros Hy Hm Hd. rewrite toIso_text by assumption.
  destruct (year_text y Hy) as (Ny & _).
  destruct (field_text m true Hm) as (Nm & _).
  destruct (field_text d true Hd) as (Nd & _).
  change (toString (Int y) ++ "-" ++ fieldForm true m ++ "-" ++ fieldForm true d)%string
    with (toString (Int y) ++ String "-" (fieldForm true m ++ String "-" (fieldForm true d)))%string.
  now rewrite !split_app, split_noHyphen by assumption.
Qed.

(** Different fields print differently. *)
Lemma toIso_injective (y m d y' m' d' : Z) :
  1000 <= y <= 9999 -> 1 <= m <= 31 -> 1 <= d <= 31 ->
  1000 <= y' <= 9999 -> 1 <= m' <= 31 -> 1 <= d' <= 31 ->
  toIso (Int y) (Int m) (Int d) = toIso (Int y') (Int m') (Int d') ->
  y = y' /\ m = m' /\ d = d'.
Proof.
  intros Hy Hm Hd Hy' Hm' Hd' E.
  pose proof (split_toIso y m d Hy Hm Hd) as S.
  rewrite E, (split_toIso y' m' d' Hy' Hm' Hd') in S.
  injection S as Ey Em Ed.
  destruct (year_text y Hy) as (_ & _ & Fy), (year_text y' Hy') as (_ & _ & Fy').
  destruct (field_text m true Hm) as (_ & _ & _ & _ & Fm).
  destruct (field_text m' true Hm') as (_ & _ & _ & _ & Fm').
  destruct (field_text d true Hd) as (_ & _ & _ & _ & Fd).
  destruct (field_text d' true Hd') as (_ & _ & _ & _ & Fd').
  unfold toString in *. repeat split; congruence.
Qed.

(** The native parser reads the printed fields back. *)
Lemma parse_toIso (host : Host) (y m d : Z) :
  1000 <= y <= 9999 -> 1 <= m <= 31 -> 1 <= d <= 31 ->
  parse host (toIso (Int y) (Int m) (Int d)) = dateOnly host y m d.
Proof.
  intros Hy Hm Hd. unfold parse. rewrite split_toIso by assumption.
  destruct (year_text y Hy) as (_ & _ & ->).
  destruct (field_text m true Hm) as (_ & _ & _ & _ & ->).
  destruct (field_text d true Hd) as (_ & _ & _ & _ & ->).
  destruct (toString (Int y)); reflexivity.
Qed.

Lemma DayFromYear_bounds (y : Z) :
  1000 <= y <= 9999 -> -354285 <= DayFromYear y /\ DayFromYear (y + 1) <= 2932897.
Proof.
  intros H. unfold DayFromYear. Z.div_mod_to_equations. lia.
Qed.

Lemma MonthStart_range (mn leap : Z) :
  0 <= leap <= 1 -> 0 <= MonthStart mn leap <= 335.
Proof.
  intros H. unfold MonthStart.
  repeat match goal with
         | |- context [match ?x with _ => _ end] => destruct x
         end; lia.
Qed.

Lemma LeapDays_bounds (y : Z) : 0 <= LeapDays y <= 1.
Proof.
  destruct (LeapDays_range y) as [[-> _] | [-> _]]; lia.
Qed.

Lemma TimeClip_in_range (t : Z) : Z.abs t <= maxTime -> TimeClip t = Int t.
Proof.
  unfold TimeClip. intros H. destruct (Z.ltb_spec maxTime (Z.abs t)); [lia | reflexivity].
Qed.

(** The time value of a date-only form: the UTC midnight of the day the
    fields name, a day beyond the month running on into the next, unless
    the host rejects such a day. *)
Lemma dateOnly_value (host : Host) (y m d : Z) :
  1000 <= y <= 9999 -> 1 <= m <= 12 -> 1 <= d <= 31 ->
  dateOnly host y m d
  = if dayCarry host || (d <=? DaysInMonth y m)
    then Int (civilDay y m d * msPerDay)
    else NaN.
Proof.
  intros Hy Hm Hd. unfold dateOnly.
  replace ((1 <=? m) && (m <=? 12) && (1 <=? d) && (d <=? 31)) with true
    by (symmetry; rewrite !andb_true_iff, !Z.leb_le; lia).
  cbn [andb]. destruct (dayCarry host || (d <=? DaysInMonth y m)); [| reflexivity].
  unfold MakeDay.
  replace ((m - 1) / 12) with 0 by (Z.div_mod_to_equations; lia).
  replace ((m - 1) mod 12) with (m - 1) by (Z.div_mod_to_equations; lia).
  replace (y + 0) with y by lia.
  pose proof (DayFromYear_bounds y Hy) as [Hlo Hhi].
  pose proof (DayFromYear_mono y (y + 1) ltac:(lia)).
  pose proof (MonthStart_range (m - 1) (LeapDays y) (LeapDays_bounds y)).
  unfold MakeDate, civilDay.
  rewrite TimeClip_in_range by (unfold msPerDay, maxTime; lia).
  f_equal. lia.
Qed.

(* ================================================================== *)
(** * Instances that hold a UTC midnight, in a zone of fixed offset *)
(* ================================================================== *)

Lemma Day_midnight (D : Z) : Day (D * msPerDay) = D.
Proof.
  unfold Day. apply Z.div_mul. discriminate.
Qed.

Lemma Day_local_fixed (offset now : Z) (carry : bool) (fallback : string -> number) (D : Z) :
  Day (LocalTime (fixedZone offset now carry fallback) (D * msPerDay))
  = D + offset / msPerDay.
Proof.
  unfold LocalTime, Day. cbn [LocalTZA fixedZone].
  rewrite Z.add_comm, Z.div_add by discriminate. lia.
Qed.

(** The fields of such an instance are those of the day [offset / msPerDay]
    days on: the same day for a zone ahead of UTC by less than a day, the
    day before for a zone behind it. *)
Lemma fixed_zone_fields
    (offset now : Z) (carry : bool) (fallback : string -> number)
    (this : NativeDate) (D : Z) :
  generatedDate this = Int (D * msPerDay) ->
  let host := fixedZone offset now carry fallback in
  let local := (D + offset / msPerDay) * msPerDay in
  year host this = Int (YearFromTime local)
  /\ month host this = Int (MonthFromTime local + 1)
  /\ day host this = Int (DateFromTime local).
Proof.
  intros E host local. unfold year, month, day. rewrite E.
  cbn [getFullYear getMonth getDate add].
  assert (Hd : Day (LocalTime host (D * msPerDay)) = Day local)
    by (unfold local; rewrite Day_midnight; apply Day_local_fixed).
  destruct (fields_by_day _ _ Hd) as (-> & -> & ->). auto.
Qed.

Lemma fields_of_civilDay (y m d : Z) :
  1 <= m <= 12 -> 1 <= d <= DaysInMonth y m ->
  YearFromTime (civilDay y m d * msPerDay) = y
  /\ MonthFromTime (civilDay y m d * msPerDay) + 1 = m
  /\ DateFromTime (civilDay y m d * msPerDay) = d.
Proof.
  intros Hm Hd.
  destruct (fields_of_civil (civilDay y m d * msPerDay) y (m - 1) d) as (Ey & Em & Ed).
  - lia.
  - now replace (m - 1 + 1) with m by lia.
  - rewrite Day_midnight. reflexivity.
  - rewrite Ey, Em, Ed. repeat split; lia.
Qed.

(** A day beyond the month is the day of the next month that many days
    on. *)
Lemma civilDay_carry (y m d : Z) :
  1 <= m <= 11 -> civilDay y m d = civilDay y (m + 1) (d - DaysInMonth y m).
Proof.
  intros Hm. unfold civilDay.
  replace (m + 1 - 1) with (m - 1 + 1) by lia.
  rewrite (MonthStart_next (m - 1) (LeapDays y) y) by (lia || reflexivity).
  replace (m - 1 + 1) with m by lia. lia.
Qed.

Lemma DaysInMonth_range (y m : Z) : 28 <= DaysInMonth y m <= 31.
Proof.
  unfold DaysInMonth. pose proof (LeapDays_bounds y).
  repeat match goal with
         | |- context [match ?x with _ => _ end] => destruct x
         end; lia.
Qed.

Lemma DaysInMonth_december (y : Z) : DaysInMonth y 12 = 31.
Proof.
  reflexivity.
Qed.

(* ================================================================== *)
(** * Canonical form of [isoString] *)
(* ================================================================== *)

(** A year of 1000 to 9999 prints as the four digits that read back as
    it. *)
Lemma year_field_text (y : Z) :
  1000 <= y <= 9999 -> field 4 (toString (Int y)) = Some y.
Proof.
  intros H.
  pose proof (zrange_all
                (fun z => match field 4 (toString (Int z)) with
                          | Some v => v =? z
                          | None => false
                          end) 1000 9999 ltac:(vm_compute; reflexivity) y H) as C.
  cbv beta in C.
  destruct (field 4 (toString (Int y))) as [v |]; [| discriminate].
  apply Z.eqb_eq in C. now subst v.
Qed.

(** C5.  On every instance that wraps a valid instant whose local year [y]
    has four digits (1000 to 9999), [isoString] is the text of the year, of
    the month [m] and of the day [d] of the instance, joined by hyphens:
    the year in the four digits that read back as [y], the month and the
    day each with a leading zero below 10, in the two digits that read back
    as [m] and as [d]. *)
Theorem isoString_canonical (host : Host) (this : NativeDate) (y : Z) :
  validInstant this ->
  year host this = Int y ->
  1000 <= y <= 9999 ->
  exists m d,
    month host this = Int m /\ day host this = Int d
    /\ 1 <= m <= 12 /\ 1 <= d <= 31
    /\ isoString host this
       = toString (Int y) ++ "-" ++ fieldForm true m ++ "-" ++ fieldForm true d
    /\ field 4 (toString (Int y)) = Some y
    /\ field 2 (fieldForm true m) = Some m
    /\ field 2 (fieldForm true d) = Some d
    /\ isCanonical (isoString host this) = true.
Proof.
  intros Hvalid Hy Hrange.
  destruct (fields_of_valid host this Hvalid)
    as (y' & m & d & Hy' & Hm & Hd & Hmr & Hdr).
  assert (Hm31 : 1 <= m <= 31) by lia.
  destruct (field_text m true Hm31) as (_ & _ & _ & _ & Fm).
  destruct (field_text d true Hdr) as (_ & _ & _ & _ & Fd).
  exists m, d.
  split; [exact Hm |]. split; [exact Hd |].
  split; [exact Hmr |]. split; [exact Hdr |].
  split; [unfold isoString; rewrite Hy, Hm, Hd; now apply toIso_text |].
  split; [now apply year_field_text |].
  split; [exact Fm |]. split; [exact Fd |].
  unfold isoString, toIso. rewrite Hy, Hm, Hd.
  apply canonical_assembly;
    [apply year_digits | apply field_digits | apply field_digits]; assumption.
Qed.

Lemma isoString_canonical_witness :
  validInstant epochDay
  /\ year exampleUtc epochDay = Int 1970
  /\ exists m d,
       month exampleUtc epochDay = Int m /\ day exampleUtc epochDay = Int d
       /\ 1 <= m <= 12 /\ 1 <= d <= 31
       /\ isoString exampleUtc epochDay
          = toString (Int 1970) ++ "-" ++ fieldForm true m ++ "-" ++ fieldForm true d
       /\ field 4 (toString (Int 1970)) = Some 1970
       /\ field 2 (fieldForm true m) = Some m
       /\ field 2 (fieldForm true d) = Some d
       /\ isCanonical (isoString exampleUtc epochDay) = true.
Proof.
  split; [discriminate | split; [reflexivity |]].
  apply (isoString_canonical exampleUtc epochDay 1970);
    [discriminate | reflexivity | lia].
Defined.

(** C5, as stated, fails: the instance made from the native Date of
    31 December 999 wraps a valid instant, and its [isoString] has a
    three-digit year. *)
Lemma isoString_three_digit_year :
  exists this,
    nativeDateHelper exampleUtc (VDate (Int (-30610310400000))) = Normal (this, [])
    /\ validInstant this
    /\ isoString exampleUtc this = "999-12-31"
    /\ isCanonical (isoString exampleUtc this) = false.
Proof.
  eexists. split; [reflexivity |]. split; [discriminate |].
  split; vm_compute; reflexivity.
Qed.

(* ================================================================== *)
(** * Construction from an accepted string *)
(* ================================================================== *)

Lemma toIso_canonical (y m d : Z) :
  1000 <= y <= 9999 -> 1 <= m <= 31 -> 1 <= d <= 31 ->
  isCanonical (toIso (Int y) (Int m) (Int d)) = true.
Proof.
  intros Hy Hm Hd. apply canonical_assembly;
    [apply year_digits | apply field_digits | apply field_digits]; assumption.
Qed.

Lemma constructor_accepted (host : Host) (y m d : Z) (zm zd : bool) :
  1000 <= y <= 2999 -> 1 <= m <= 12 -> 1 <= d <= 31 ->
  nativeDateHelper host
    (VString (toString (Int y) ++ "-" ++ fieldForm zm m ++ "-" ++ fieldForm zd d))
  = Normal
      ({| isHealed := false;
          generatedDate := if dayCarry host || (d <=? DaysInMonth y m)
                           then Int (civilDay y m d * msPerDay)
                           else NaN;
          dateString := toIso (Int y) (Int m) (Int d) |},
       if dayCarry host || (d <=? DaysInMonth y m)
       then []
       else ["DATE is not valid Date"]).
Proof.
  intros Hy Hm Hd.
  assert (Hiso : isIso (VString (toString (Int y) ++ "-" ++ fieldForm zm m
                                 ++ "-" ++ fieldForm zd d)) = true)
    by (apply isIso_accepts; exists y, m, d, zm, zd; auto).
  unfold nativeDateHelper, constructor.
  cbn [isDate typeof String.eqb Ascii.eqb Bool.eqb negb bind]. rewrite Hiso.
  rewrite addLeadingZeros_accepted, <- toIso_text by lia.
  unfold newDateFromString. rewrite parse_toIso, dateOnly_value by lia.
  cbn [bind date generatedDate truthy andb].
  destruct (dayCarry host || (d <=? DaysInMonth y m)); reflexivity.
Qed.

(** X4.  Every string [isIso] accepts is the text of a year [y] of 1000 to
    2999, a month [m] of 1 to 12 and a day [d] of 1 to 31, month and day
    with or without a leading zero, and makes an instance that is not
    healed, whose [dateString] is the canonical text of [y], [m] and [d],
    and whose Date is the UTC midnight of the day they name.  A day the
    month does not have runs on into the next month, or gives an Invalid
    Date with the one warning, as the host's parser has it. *)
Theorem construction_from_accepted_string (host : Host) (s : string) :
  isIso (VString s) = true ->
  exists y m d zm zd,
    1000 <= y <= 2999 /\ 1 <= m <= 12 /\ 1 <= d <= 31
    /\ s = toString (Int y) ++ "-" ++ fieldForm zm m ++ "-" ++ fieldForm zd d
    /\ toIso (Int y) (Int m) (Int d)
       = toString (Int y) ++ "-" ++ fieldForm true m ++ "-" ++ fieldForm true d
    /\ isCanonical (toIso (Int y) (Int m) (Int d)) = true
    /\ nativeDateHelper host (VString s)
       = Normal
           ({| isHealed := false;
               generatedDate := if dayCarry host || (d <=? DaysInMonth y m)
                                then Int (civilDay y m d * msPerDay)
                                else NaN;
               dateString := toIso (Int y) (Int m) (Int d) |},
            if dayCarry host || (d <=? DaysInMonth y m)
            then []
            else ["DATE is not valid Date"]).
Proof.
  intros H. apply isIso_accepts in H.
  destruct H as (y & m & d & zm & zd & Hy & Hm & Hd & ->).
  exists y, m, d, zm, zd.
  split; [exact Hy |]. split; [exact Hm |]. split; [exact Hd |].
  split; [reflexivity |].
  split; [apply toIso_text; lia |].
  split; [apply toIso_canonical; lia |].
  now apply constructor_accepted.
Qed.

Lemma construction_from_accepted_string_witness :
  isIso (VString "2023-2-31") = true
  /\ exists y m d zm zd,
       1000 <= y <= 2999 /\ 1 <= m <= 12 /\ 1 <= d <= 31
       /\ "2023-2-31" = toString (Int y) ++ "-" ++ fieldForm zm m ++ "-" ++ fieldForm zd d
       /\ toIso (Int y) (Int m) (Int d)
          = toString (Int y) ++ "-" ++ fieldForm true m ++ "-" ++ fieldForm true d
       /\ isCanonical (toIso (Int y) (Int m) (Int d)) = true
       /\ nativeDateHelper exampleUtc (VString "2023-2-31")
          = Normal
              ({| isHealed := false;
                  generatedDate := if dayCarry exampleUtc || (d <=? DaysInMonth y m)
                                   then Int (civilDay y m d * msPerDay)
                                   else NaN;
                  dateString := toIso (Int y) (Int m) (Int d) |},
               if dayCarry exampleUtc || (d <=? DaysInMonth y m)
               then []
               else ["DATE is not valid Date"]).
Proof.
  split; [reflexivity |].
  exact (construction_from_accepted_string exampleUtc "2023-2-31" eq_refl).
Defined.

Lemma year_of_day_range (D lo hi : Z) :
  DayFromYear lo <= D < DayFromYear (hi + 1) ->
  lo <= YearFromTime (D * msPerDay) <= hi.
Proof.
  intros [Hlo Hhi]. pose proof (YearFromTime_day (D * msPerDay)) as [Ylo Yhi].
  rewrite Day_midnight in *. set (Y := YearFromTime (D * msPerDay)) in *.
  split.
  - destruct (Z.le_gt_cases lo Y); [assumption |].
    pose proof (DayFromYear_mono (Y + 1) lo). lia.
  - destruct (Z.le_gt_cases Y hi); [assumption |].
    pose proof (DayFromYear_mono (hi + 1) Y). lia.
Qed.

Lemma civilDay_in_year (y m d : Z) :
  1 <= m <= 12 -> 1 <= d <= DaysInMonth y m ->
  DayFromYear y <= civilDay y m d < DayFromYear (y + 1).
Proof.
  intros Hm Hd.
  destruct (fields_of_civilDay y m d Hm Hd) as (Ey & _).
  pose proof (YearFromTime_day (civilDay y m d * msPerDay)) as H.
  now rewrite Ey, Day_midnight in H.
Qed.

Lemma isValidDateString_isoString (host : Host) (this : NativeDate) :
  isValidDateString host this = (isoString host this =? dateString this)%string.
Proof.
  reflexivity.
Qed.

Section AcceptedStrings.

Variables (offset now : Z) (carry : bool) (fallback : string -> number).
Variables (y m d : Z) (zm zd : bool).
Hypothesis year_ok : 1000 <= y <= 2999.
Hypothesis month_ok : 1 <= m <= 12.

Local Notation "'zone'" := (fixedZone offset now carry fallback).
Local Notation "'text'" :=
  (toString (Int y) ++ "-" ++ fieldForm zm m ++ "-" ++ fieldForm zd d)%string.

(** X5.  At or ahead of UTC by less than a day, an accepted string whose day the
    month has makes an instance with exactly the fields of the string:
    [isoString] is the stored [dateString], both validations are true, and
    the instance made from its [isoString] [isEqual] to it. *)
Theorem accepted_string_ahead_of_utc :
  0 <= offset < msPerDay -> 1 <= d <= DaysInMonth y m ->
  exists this,
    nativeDateHelper zone (VString text) = Normal (this, [])
    /\ year zone this = Int y /\ month zone this = Int m /\ day zone this = Int d
    /\ isoString zone this = dateString this
    /\ isValidDateString zone this = true
    /\ isValidDate zone this = true
    /\ roundTrip zone text = Normal true.
Proof.
  intros Hoff Hd.
  pose proof (DaysInMonth_range y m) as Hdim.
  assert (Hd31 : 1 <= d <= 31) by lia.
  assert (Hcond : dayCarry zone || (d <=? DaysInMonth y m) = true)
    by (apply orb_true_iff; right; apply Z.leb_le; lia).
  pose proof (constructor_accepted zone y m d zm zd year_ok month_ok Hd31) as Hnew.
  rewrite Hcond in Hnew.
  set (this := {| isHealed := false;
                  generatedDate := Int (civilDay y m d * msPerDay);
                  dateString := toIso (Int y) (Int m) (Int d) |}) in *.
  destruct (fixed_zone_fields offset now carry fallback this (civilDay y m d) eq_refl)
    as (Ey & Em & Ed).
  replace (offset / msPerDay) with 0 in Ey, Em, Ed
    by (unfold msPerDay in *; Z.div_mod_to_equations; lia).
  rewrite Z.add_0_r in Ey, Em, Ed.
  destruct (fields_of_civilDay y m d month_ok Hd) as (Fy & Fm & Fd).
  rewrite Fy in Ey. rewrite Fm in Em. rewrite Fd in Ed.
  assert (Hiso : isoString zone this = dateString this)
    by (unfold isoString; rewrite Ey, Em, Ed; reflexivity).
  exists this. repeat split; try assumption.
  - rewrite isValidDateString_isoString, Hiso. apply String.eqb_refl.
  - apply isValidDate_native. discriminate.
  - unfold roundTrip, instanceOf. rewrite Hnew. cbn [bind fst].
    rewrite Hiso. cbn [dateString this]. rewrite toIso_text by lia.
    pose proof (constructor_accepted zone y m d true true year_ok month_ok Hd31) as Hagain.
    rewrite Hcond in Hagain. rewrite Hagain. cbn [bind fst]. fold this.
    unfold isEqual. rewrite Ey, Em, Ed. cbn [strictEq]. now rewrite !Z.eqb_refl.
Qed.

(** X6.  A day the month does not have, on a host whose parser carries: the
    instance is on the day of the next month that many days on, so
    [isValidDateString] is false while [isValidDate] is true. *)
Theorem overflowing_day_is_carried :
  0 <= offset < msPerDay -> carry = true -> DaysInMonth y m < d <= 31 ->
  exists this,
    nativeDateHelper zone (VString text) = Normal (this, [])
    /\ year zone this = Int y
    /\ month zone this = Int (m + 1)
    /\ day zone this = Int (d - DaysInMonth y m)
    /\ dateString this = toIso (Int y) (Int m) (Int d)
    /\ isValidDateString zone this = false
    /\ isValidDate zone this = true.
Proof.
  intros Hoff -> Hd.
  pose proof (DaysInMonth_range y m) as Hdim.
  assert (Hm11 : 1 <= m <= 11).
  { destruct (Z.eq_dec m 12) as [-> |]; [rewrite DaysInMonth_december in Hd |]; lia. }
  assert (Hd31 : 1 <= d <= 31) by lia.
  pose proof (constructor_accepted (fixedZone offset now true fallback)
                y m d zm zd year_ok month_ok Hd31) as Hnew.
  cbn [dayCarry fixedZone orb] in Hnew.
  set (this := {| isHealed := false;
                  generatedDate := Int (civilDay y m d * msPerDay);
                  dateString := toIso (Int y) (Int m) (Int d) |}) in *.
  destruct (fixed_zone_fields offset now true fallback this (civilDay y m d) eq_refl)
    as (Ey & Em & Ed).
  replace (offset / msPerDay) with 0 in Ey, Em, Ed
    by (unfold msPerDay in *; Z.div_mod_to_equations; lia).
  rewrite Z.add_0_r, (civilDay_carry y m d Hm11) in Ey, Em, Ed.
  pose proof (DaysInMonth_range y (m + 1)) as Hdim'.
  destruct (fields_of_civilDay y (m + 1) (d - DaysInMonth y m)) as (Fy & Fm & Fd);
    [lia | lia |].
  rewrite Fy in Ey. rewrite Fm in Em. rewrite Fd in Ed.
  exists this. repeat split; try assumption.
  - unfold isValidDateString. rewrite Ey, Em, Ed. cbn [dateString this].
    apply String.eqb_neq. intros E.
    apply toIso_injective in E; lia.
  - apply isValidDate_native. discriminate.
Qed.

(** X7.  The same day on a host whose parser does not carry: an Invalid Date,
    the warning, and both validations false. *)
Theorem overflowing_day_is_invalid (host : Host) :
  dayCarry host = false -> DaysInMonth y m < d <= 31 ->
  exists this,
    nativeDateHelper host (VString text) = Normal (this, ["DATE is not valid Date"])
    /\ isHealed this = false
    /\ generatedDate this = NaN
    /\ dateString this = toIso (Int y) (Int m) (Int d)
    /\ isValidDate host this = false
    /\ isValidDateString host this = false.
Proof.
  intros Hc Hd.
  assert (Hd31 : 1 <= d <= 31) by (pose proof (DaysInMonth_range y m); lia).
  pose proof (constructor_accepted host y m d zm zd year_ok month_ok Hd31) as Hnew.
  rewrite Hc in Hnew. cbn [orb] in Hnew.
  replace (d <=? DaysInMonth y m) with false in Hnew
    by (symmetry; apply Z.leb_gt; lia).
  eexists. split; [exact Hnew |]. repeat split.
  unfold isValidDateString. cbn [dateString]. apply String.eqb_neq. intros E.
  pose proof (toIso_canonical y m d ltac:(lia) ltac:(lia) Hd31) as C.
  rewrite <- E in C. vm_compute in C. discriminate.
Qed.

(** X8.  Behind UTC by up to a day, the instance of an accepted string is on
    the day before the one the string names: [isValidDateString] is false
    for every accepted string, and the instance made from its [isoString]
    is a day earlier still, so [isEqual] is false. *)
Theorem accepted_string_behind_utc :
  - msPerDay <= offset < 0 -> 1001 <= y -> 1 <= d <= DaysInMonth y m ->
  exists this y' m' d',
    nativeDateHelper zone (VString text) = Normal (this, [])
    /\ year zone this = Int y' /\ month zone this = Int m' /\ day zone this = Int d'
    /\ civilDay y' m' d' = civilDay y m d - 1
    /\ dateString this = toIso (Int y) (Int m) (Int d)
    /\ isValidDateString zone this = false
    /\ roundTrip zone text = Normal false.
Proof.
  intros Hoff Hy1 Hd.
  pose proof (DaysInMonth_range y m) as Hdim.
  assert (Hd31 : 1 <= d <= 31) by lia.
  assert (Hcond : dayCarry zone || (d <=? DaysInMonth y m) = true)
    by (apply orb_true_iff; right; apply Z.leb_le; lia).
  pose proof (constructor_accepted zone y m d zm zd year_ok month_ok Hd31) as Hnew.
  rewrite Hcond in Hnew.
  set (D := civilDay y m d) in *.
  set (this := {| isHealed := false;
                  generatedDate := Int (D * msPerDay);
                  dateString := toIso (Int y) (Int m) (Int d) |}) in *.
  assert (Hshift : offset / msPerDay = -1)
    by (unfold msPerDay in *; Z.div_mod_to_equations; lia).
  destruct (fixed_zone_fields offset now carry fallback this D eq_refl)
    as (Ey & Em & Ed).
  rewrite Hshift in Ey, Em, Ed. replace (D + -1) with (D - 1) in Ey, Em, Ed by lia.
  set (local := (D - 1) * msPerDay) in *.
  destruct (civil_of_fields local) as [Hday Hdate].
  unfold local in Hday at 1. rewrite Day_midnight in Hday.
  pose proof (MonthFromTime_range local) as Hmr.
  set (y' := YearFromTime local) in *. set (mn := MonthFromTime local) in *.
  set (d' := DateFromTime local) in *.
  assert (Hcivil : civilDay y' (mn + 1) d' = D - 1)
    by (unfold civilDay; replace (mn + 1 - 1) with mn by lia; lia).
  assert (Hy' : 1000 <= y' <= 2999).
  { apply year_of_day_range.
    pose proof (civilDay_in_year y m d month_ok Hd) as [Hlo Hhi]. fold D in Hlo, Hhi.
    pose proof (DayFromYear_mono 1001 y Hy1).
    pose proof (DayFromYear_mono (y + 1) (2999 + 1) ltac:(lia)).
    assert (DayFromYear 1000 < DayFromYear 1001) by (vm_compute; reflexivity).
    lia. }
  pose proof (DaysInMonth_range y' (mn + 1)) as Hdim'.
  assert (Hiso : isoString zone this = toIso (Int y') (Int (mn + 1)) (Int d'))
    by (unfold isoString; rewrite Ey, Em, Ed; reflexivity).
  exists this, y', (mn + 1), d'.
  split; [exact Hnew |]. split; [exact Ey |]. split; [exact Em |].
  split; [exact Ed |]. split; [exact Hcivil |]. split; [reflexivity |]. split.
  - rewrite isValidDateString_isoString, Hiso.
    cbn [dateString this]. apply String.eqb_neq. intros E.
    apply toIso_injective in E; try lia.
    destruct E as (E1 & E2 & E3). rewrite E1, E2, E3 in Hcivil.
    fold D in Hcivil. lia.
  - unfold roundTrip, instanceOf. rewrite Hnew. cbn [bind fst].
    rewrite Hiso, toIso_text by lia.
    pose proof (constructor_accepted zone y' (mn + 1) d' true true
                  Hy' ltac:(lia) ltac:(lia)) as Hagain.
    replace (dayCarry zone || (d' <=? DaysInMonth y' (mn + 1))) with true in Hagain
      by (symmetry; apply orb_true_iff; right; apply Z.leb_le; lia).
    rewrite Hagain, Hcivil. cbn [bind fst]. f_equal.
    set (again := {| isHealed := false;
                     generatedDate := Int ((D - 1) * msPerDay);
                     dateString := toIso (Int y') (Int (mn + 1)) (Int d') |}).
    destruct (isEqual zone again this) eqn:Eq; [| reflexivity].
    apply (proj1 (local_day_comparison zone again this
                    ((D - 1) * msPerDay) (D * msPerDay) eq_refl eq_refl)) in Eq.
    rewrite !Day_local_fixed in Eq. lia.
Qed.

End AcceptedStrings.

(* ================================================================== *)
(** * Arithmetic in a zone of fixed offset *)
(* ================================================================== *)

Lemma civilDay_same_year (y m d : Z) :
  1 <= m <= 12 -> 1 <= d <= 31 ->
  DayFromYear y <= civilDay y m d < DayFromYear (y + 1).
Proof.
  intros Hm Hd. rewrite DayFromYear_next. unfold civilDay.
  generalize (DayFromYear y). intros first.
  assert (Hc : 0 <= m - 1 <= 11) by lia. revert Hc.
  generalize (m - 1). intros mn Hc.
  destruct (LeapDays_range y) as [[-> ->] | [-> ->]];
    month_cases mn; cbv beta iota delta [MonthStart]; lia.
Qed.

Lemma fourDigitYear_bounds (D : Z) :
  fourDigitYear D -> -354285 <= D < 2932897.
Proof.
  unfold fourDigitYear. intros H.
  pose proof (YearFromTime_day (D * msPerDay)) as [Hlo Hhi].
  rewrite Day_midnight in *.
  pose proof (DayFromYear_bounds _ H). lia.
Qed.

Lemma fourDigitYear_civil (y m d : Z) :
  1000 <= y <= 9999 -> 1 <= m <= 12 -> 1 <= d <= 31 ->
  fourDigitYear (civilDay y m d).
Proof.
  intros Hy Hm Hd. unfold fourDigitYear.
  assert (E : YearFromTime (civilDay y m d * msPerDay) = y).
  { apply YearFromTime_unique. rewrite Day_midnight.
    now apply civilDay_same_year. }
  now rewrite E.
Qed.

Lemma civilDay_of_day (D : Z) :
  civilDay (YearFromTime (D * msPerDay)) (MonthFromTime (D * msPerDay) + 1)
           (DateFromTime (D * msPerDay)) = D.
Proof.
  destruct (civil_of_fields (D * msPerDay)) as [E _]. rewrite Day_midnight in E.
  unfold civilDay.
  replace (MonthFromTime (D * msPerDay) + 1 - 1) with (MonthFromTime (D * msPerDay)) by lia.
  lia.
Qed.

(** [MakeDay] on a year, a month counted from 0 that may lie outside the
    year, and a date. *)
Lemma MakeDay_civil (y mm x : Z) :
  1000 <= y + mm / 12 <= 9999 ->
  MakeDay (Int y) (Int mm) (Int x)
  = Int (civilDay (y + mm / 12) (mm mod 12 + 1) x).
Proof.
  intros Hy. unfold MakeDay, civilDay.
  replace (mm mod 12 + 1 - 1) with (mm mod 12) by lia.
  reflexivity.
Qed.

(** The text of a day with a four-digit year parses back to that day. *)
Lemma parse_isoOfDay (host : Host) (D : Z) :
  fourDigitYear D -> parse host (isoOfDay D) = Int (D * msPerDay).
Proof.
  intros H. unfold isoOfDay, fourDigitYear in *.
  pose proof (MonthFromTime_range (D * msPerDay)) as Hm.
  destruct (civil_of_fields (D * msPerDay)) as [_ Hd].
  pose proof (DaysInMonth_range (YearFromTime (D * msPerDay))
                (MonthFromTime (D * msPerDay) + 1)) as Hdim.
  rewrite parse_toIso, dateOnly_value by lia.
  replace (DateFromTime (D * msPerDay) <=? _) with true
    by (symmetry; apply Z.leb_le; lia).
  rewrite orb_true_r, civilDay_of_day. reflexivity.
Qed.

(** [updateGeneratedDate] stores the instance's [isoString] and the Date
    parsed from it, and returns that Date. *)
Lemma updateGeneratedDate_isoString (host : Host) (this : NativeDate) :
  updateGeneratedDate host this
  = ({| isHealed := isHealed this;
        generatedDate := parse host (isoString host this);
        dateString := isoString host this |},
     VDate (parse host (isoString host this))).
Proof.
  reflexivity.
Qed.

(** What the three getters say of an instance: it holds a time value, and
    they are the year, the month and the date of its local time, a date the
    month has. *)
Lemma fields_read (host : Host) (this : NativeDate) (y m d : Z) :
  year host this = Int y -> month host this = Int m -> day host this = Int d ->
  exists t,
    generatedDate this = Int t
    /\ YearFromTime (LocalTime host t) = y
    /\ MonthFromTime (LocalTime host t) = m - 1
    /\ DateFromTime (LocalTime host t) = d
    /\ 1 <= m <= 12 /\ 1 <= d <= DaysInMonth y m.
Proof.
  unfold year, month, day. destruct (generatedDate this) as [|t]; [discriminate |].
  cbn [getFullYear getMonth getDate add]. intros Ey Em Ed.
  injection Ey as Ey. injection Em as Em. injection Ed as Ed.
  pose proof (MonthFromTime_range (LocalTime host t)) as Hm.
  destruct (civil_of_fields (LocalTime host t)) as [_ Hd].
  rewrite Ey, Ed in Hd.
  replace (MonthFromTime (LocalTime host t) + 1) with m in Hd by lia.
  exists t. repeat split; try assumption; lia.
Qed.

Lemma TimeWithinDay_range (t : Z) : 0 <= TimeWithinDay t < msPerDay.
Proof.
  unfold TimeWithinDay. apply Z.mod_pos_bound. reflexivity.
Qed.

Section FixedZone.

Variables (offset now : Z) (carry : bool) (fallback : string -> number).
Hypothesis within_a_day : - msPerDay <= offset < msPerDay.

Local Notation "'zone'" := (fixedZone offset now carry fallback).
Local Notation "'shift'" := (offset / msPerDay).

Lemma shift_cases : shift = 0 \/ shift = -1.
Proof.
  unfold msPerDay in *. Z.div_mod_to_equations. lia.
Qed.

Lemma local_split (D : Z) :
  Day (LocalTime zone (D * msPerDay)) = D + shift
  /\ TimeWithinDay (LocalTime zone (D * msPerDay)) = offset - shift * msPerDay.
Proof.
  split; [apply Day_local_fixed |].
  unfold LocalTime, TimeWithinDay. cbn [LocalTZA fixedZone].
  unfold msPerDay in *. Z.div_mod_to_equations. lia.
Qed.

(** What a setter leaves in the Date: called with target day [T] in local
    time, the UTC midnight [shift] days before [T]. *)
Lemma clipUTC_local (T : Z) :
  fourDigitYear T ->
  clipUTC zone (MakeDate (Int T) (offset - shift * msPerDay))
  = Int ((T - shift) * msPerDay).
Proof.
  intros H. apply fourDigitYear_bounds in H.
  cbn [MakeDate clipUTC]. unfold UTC. cbn [LocalTZA fixedZone].
  replace (T * msPerDay + (offset - shift * msPerDay) - offset)
    with ((T - shift) * msPerDay) by lia.
  apply TimeClip_in_range.
  destruct shift_cases as [-> | ->]; unfold msPerDay, maxTime; lia.
Qed.

(** [updateGeneratedDate] on that Date: the instance is rebuilt on the UTC
    midnight of [T] itself. *)
Lemma update_local (this : NativeDate) (T : Z) :
  fourDigitYear T ->
  updateGeneratedDate zone (withDate this (Int ((T - shift) * msPerDay)))
  = (onDay (isHealed this) T, VDate (Int (T * msPerDay))).
Proof.
  intros HT. rewrite updateGeneratedDate_isoString.
  destruct (fixed_zone_fields offset now carry fallback
              (withDate this (Int ((T - shift) * msPerDay))) (T - shift) eq_refl)
    as (Ey & Em & Ed).
  replace (T - shift + shift) with T in Ey, Em, Ed by lia.
  unfold isoString. rewrite Ey, Em, Ed. fold (isoOfDay T).
  rewrite (parse_isoOfDay zone T HT). reflexivity.
Qed.

(** The same for a Date at any time of day.  A setter keeps the time within
    the day [w] and leaves the instant of local day [T] at that time;
    [updateGeneratedDate] prints the local day of that instant, which is
    [T], and parses it back to the UTC midnight of [T]. *)
Lemma clipUTC_time_of_day (T w : Z) :
  fourDigitYear T -> 0 <= w < msPerDay ->
  clipUTC zone (MakeDate (Int T) w) = Int (T * msPerDay + w - offset).
Proof.
  intros H Hw. apply fourDigitYear_bounds in H.
  cbn [MakeDate clipUTC]. unfold UTC. cbn [LocalTZA fixedZone].
  apply TimeClip_in_range. unfold msPerDay, maxTime in *. lia.
Qed.

Lemma update_time_of_day (this : NativeDate) (T w : Z) :
  fourDigitYear T -> 0 <= w < msPerDay ->
  updateGeneratedDate zone (withDate this (Int (T * msPerDay + w - offset)))
  = (onDay (isHealed this) T, VDate (Int (T * msPerDay))).
Proof.
  intros HT Hw. rewrite updateGeneratedDate_isoString.
  assert (Hd : Day (LocalTime zone (T * msPerDay + w - offset)) = Day (T * msPerDay)).
  { rewrite Day_midnight. unfold LocalTime, Day. cbn [LocalTZA fixedZone].
    unfold msPerDay in *. Z.div_mod_to_equations. lia. }
  destruct (fields_by_day _ _ Hd) as (Ey & Em & Ed).
  unfold isoString, year, month, day.
  cbn [generatedDate withDate getFullYear getMonth getDate add isHealed].
  rewrite Ey, Em, Ed. fold (isoOfDay T).
  rewrite (parse_isoOfDay zone T HT). reflexivity.
Qed.

(** [addYear (n)] on an instance whose local date is year [y], month [m],
    day [d]: it is rebuilt on the UTC midnight of that month and day of
    year [y + n]. *)
Lemma addYear_any_time (this : NativeDate) (y m d n : Z) :
  year zone this = Int y -> month zone this = Int m -> day zone this = Int d ->
  1000 <= y + n <= 9999 ->
  addYear zone (Int n) this
  = (onDay (isHealed this) (civilDay (y + n) m d),
     VDate (Int (civilDay (y + n) m d * msPerDay))).
Proof.
  intros Ey Em Ed Hy.
  destruct (fields_read zone this y m d Ey Em Ed) as (t & Ht & Fy & Fm & Fd & Hm & Hd).
  pose proof (DaysInMonth_range y m) as Hdim.
  unfold addYear. rewrite Ey, Ht. cbn [add]. unfold setFullYear.
  rewrite Fm, Fd.
  assert (E0 : (m - 1) / 12 = 0) by (Z.div_mod_to_equations; lia).
  rewrite MakeDay_civil by (rewrite E0; lia). rewrite E0.
  replace ((m - 1) mod 12 + 1) with m by (Z.div_mod_to_equations; lia).
  rewrite Z.add_0_r.
  assert (HT : fourDigitYear (civilDay (y + n) m d))
    by (apply fourDigitYear_civil; lia).
  rewrite clipUTC_time_of_day by (exact HT || apply TimeWithinDay_range).
  apply update_time_of_day; [exact HT | apply TimeWithinDay_range].
Qed.

(** [addMonth (n)] hands the month counted from 1, plus [n], to the setter
    that counts from 0. *)
Lemma addMonth_any_time (this : NativeDate) (y m d n : Z) :
  year zone this = Int y -> month zone this = Int m -> day zone this = Int d ->
  1000 <= y + (m + n) / 12 <= 9999 ->
  addMonth zone (Int n) this
  = (onDay (isHealed this) (civilDay (y + (m + n) / 12) ((m + n) mod 12 + 1) d),
     VDate (Int (civilDay (y + (m + n) / 12) ((m + n) mod 12 + 1) d * msPerDay))).
Proof.
  intros Ey Em Ed Hy.
  destruct (fields_read zone this y m d Ey Em Ed) as (t & Ht & Fy & Fm & Fd & Hm & Hd).
  pose proof (DaysInMonth_range y m) as Hdim.
  unfold addMonth. rewrite Em, Ht. cbn [add]. unfold setMonth.
  rewrite Fy, Fd. rewrite MakeDay_civil by exact Hy.
  assert (HT : fourDigitYear (civilDay (y + (m + n) / 12) ((m + n) mod 12 + 1) d))
    by (apply fourDigitYear_civil; [exact Hy | Z.div_mod_to_equations; lia | lia]).
  rewrite clipUTC_time_of_day by (exact HT || apply TimeWithinDay_range).
  apply update_time_of_day; [exact HT | apply TimeWithinDay_range].
Qed.

Variables (this : NativeDate) (D : Z).
Hypothesis at_midnight : generatedDate this = Int (D * msPerDay).

Local Notation "'y'" := (YearFromTime ((D + shift) * msPerDay)).
Local Notation "'m'" := (MonthFromTime ((D + shift) * msPerDay) + 1).
Local Notation "'d'" := (DateFromTime ((D + shift) * msPerDay)).

Lemma local_fields :
  year zone this = Int y /\ month zone this = Int m /\ day zone this = Int d
  /\ 1 <= m <= 12 /\ 1 <= d <= 31.
Proof.
  destruct (fixed_zone_fields offset now carry fallback this D at_midnight)
    as (Ey & Em & Ed).
  pose proof (MonthFromTime_range ((D + shift) * msPerDay)).
  pose proof (DateFromTime_range ((D + shift) * msPerDay)).
  repeat split; try assumption; lia.
Qed.

Lemma setters_local (n : Z) :
  let local := LocalTime zone (D * msPerDay) in
  YearFromTime local = y /\ MonthFromTime local + 1 = m /\ DateFromTime local = d.
Proof.
  intros local.
  assert (Hd : Day local = Day ((D + shift) * msPerDay))
    by (rewrite Day_midnight; apply Day_local_fixed).
  destruct (fields_by_day _ _ Hd) as (-> & -> & ->). auto.
Qed.

(** [addDay (n)] and [subtractDay (n)] rebuild the instance [n] days after,
    or before, its local day. *)
Theorem addDay_fixed_zone (n : Z) :
  1000 <= y <= 9999 -> fourDigitYear (D + shift + n) ->
  addDay zone (Int n) this
  = (onDay (isHealed this) (D + shift + n), VDate (Int ((D + shift + n) * msPerDay))).
Proof.
  intros Hy HT. destruct local_fields as (_ & _ & Ed & Hm & Hd).
  destruct (setters_local n) as (Sy & Sm & Sd).
  destruct (local_split D) as (_ & Hw).
  unfold addDay. rewrite Ed, at_midnight. cbn [add]. unfold setDate.
  rewrite Sy, Hw.
  replace (MonthFromTime (LocalTime zone (D * msPerDay))) with (m - 1) by lia.
  rewrite MakeDay_civil
    by (replace ((m - 1) / 12) with 0 by (Z.div_mod_to_equations; lia); lia).
  replace ((m - 1) / 12) with 0 by (Z.div_mod_to_equations; lia).
  replace ((m - 1) mod 12 + 1) with m by (Z.div_mod_to_equations; lia).
  replace (civilDay (y + 0) m (d + n)) with (D + shift + n)
    by (rewrite Z.add_0_r; pose proof (civilDay_of_day (D + shift)) as E;
        unfold civilDay in *; lia).
  rewrite clipUTC_local by exact HT. now apply update_local.
Qed.

(** [addYear (n)] rebuilds the instance on the same month and date of the
    year [n] on; a 29 February that the year does not have is 1 March. *)
Theorem addYear_fixed_zone (n : Z) :
  1000 <= y + n <= 9999 ->
  addYear zone (Int n) this
  = (onDay (isHealed this) (civilDay (y + n) m d),
     VDate (Int (civilDay (y + n) m d * msPerDay))).
Proof.
  intros Hy. destruct local_fields as (Ey & _ & _ & Hm & Hd).
  destruct (setters_local n) as (Sy & Sm & Sd).
  destruct (local_split D) as (_ & Hw).
  unfold addYear. rewrite Ey, at_midnight. cbn [add]. unfold setFullYear.
  rewrite Sd, Hw.
  replace (MonthFromTime (LocalTime zone (D * msPerDay))) with (m - 1) by lia.
  assert (E0 : (m - 1) / 12 = 0) by (Z.div_mod_to_equations; lia).
  rewrite MakeDay_civil by (rewrite E0; lia). rewrite E0.
  replace ((m - 1) mod 12 + 1) with m by (Z.div_mod_to_equations; lia).
  rewrite Z.add_0_r.
  pose proof (fourDigitYear_civil (y + n) m d Hy Hm Hd) as HT.
  rewrite clipUTC_local by exact HT. now apply update_local.
Qed.

(** [addMonth (n)] hands the month counted from 1, plus [n], to the setter
    that counts from 0: the instance is rebuilt on the same date [n + 1]
    months on, a date the month does not have running on into the next. *)
Theorem addMonth_fixed_zone (n : Z) :
  1000 <= y + (m + n) / 12 <= 9999 ->
  addMonth zone (Int n) this
  = (onDay (isHealed this) (civilDay (y + (m + n) / 12) ((m + n) mod 12 + 1) d),
     VDate (Int (civilDay (y + (m + n) / 12) ((m + n) mod 12 + 1) d * msPerDay))).
Proof.
  intros Hy. destruct local_fields as (_ & Em & _ & Hm & Hd).
  destruct (setters_local n) as (Sy & Sm & Sd).
  destruct (local_split D) as (_ & Hw).
  unfold addMonth. rewrite Em, at_midnight. cbn [add]. unfold setMonth.
  rewrite Sy, Sd, Hw. rewrite MakeDay_civil by exact Hy.
  assert (HT : fourDigitYear (civilDay (y + (m + n) / 12) ((m + n) mod 12 + 1) d))
    by (apply fourDigitYear_civil; [exact Hy | Z.div_mod_to_equations; lia | exact Hd]).
  rewrite clipUTC_local by exact HT. now apply update_local.
Qed.

End FixedZone.

(** [a - n] is [a + (- n)], also on NaN. *)
Lemma subtract_as_add (host : Host) (n : Z) (this : NativeDate) :
  subtractYear host (Int n) this = addYear host (Int (- n)) this
  /\ subtractMonth host (Int n) this = addMonth host (Int (- n)) this
  /\ subtractDay host (Int n) this = addDay host (Int (- n)) this.
Proof.
  assert (E : forall a, sub a (Int n) = add a (Int (- n)))
    by (intros [|a]; cbn; [reflexivity | f_equal; lia]).
  unfold subtractYear, subtractMonth, subtractDay, addYear, addMonth, addDay.
  now rewrite !E.
Qed.

(** X21.  Each [subtract] is the [add] of the negated number. *)
Lemma subtract_negates (host : Host) (n : Z) (this : NativeDate) :
  subtractYear host (Int n) this = addYear host (Int (- n)) this
  /\ subtractMonth host (Int n) this = addMonth host (Int (- n)) this
  /\ subtractDay host (Int n) this = addDay host (Int (- n)) this.
Proof.
  exact (subtract_as_add host n this).
Qed.

(* ================================================================== *)
(** * Arithmetic as a user sees it *)
(* ================================================================== *)

Lemma DaysInMonth_other_months (y y' m : Z) :
  m <> 2 -> DaysInMonth y m = DaysInMonth y' m.
Proof.
  intros H. unfold DaysInMonth.
  destruct m as [|p|p]; try reflexivity.
  do 4 (try destruct p as [p|p|]); try reflexivity. contradiction.
Qed.

Section AheadOfUtc.

Variables (offset now : Z) (carry : bool) (fallback : string -> number).
Hypothesis ahead : 0 <= offset < msPerDay.

Local Notation "'zone'" := (fixedZone offset now carry fallback).

Lemma ahead_shift : offset / msPerDay = 0.
Proof.
  unfold msPerDay in *. Z.div_mod_to_equations. lia.
Qed.

Lemma ahead_within : - msPerDay <= offset < msPerDay.
Proof.
  unfold msPerDay in *. lia.
Qed.

(** X14.  At or ahead of UTC, [addDay (n)] puts an instance that holds the UTC
    midnight of day [D] on day [D + n]; [subtractDay (n)] then brings it
    back, and two additions are one addition of the sum. *)
Theorem addDay_ahead_of_utc (this : NativeDate) (D n : Z) :
  generatedDate this = Int (D * msPerDay) ->
  fourDigitYear D -> fourDigitYear (D + n) ->
  addDay zone (Int n) this = (onDay (isHealed this) (D + n), VDate (Int ((D + n) * msPerDay)))
  /\ subtractDay zone (Int n) (fst (addDay zone (Int n) this))
     = (onDay (isHealed this) D, VDate (Int (D * msPerDay)))
  /\ forall k, fourDigitYear (D + n + k) ->
               addDay zone (Int k) (fst (addDay zone (Int n) this))
               = addDay zone (Int (n + k)) this.
Proof.
  intros Hat HD HT.
  assert (Hadd : forall (x : NativeDate) (A k : Z),
             generatedDate x = Int (A * msPerDay) ->
             fourDigitYear A -> fourDigitYear (A + k) ->
             addDay zone (Int k) x
             = (onDay (isHealed x) (A + k), VDate (Int ((A + k) * msPerDay)))).
  { intros x A k Hx HA HK.
    pose proof (addDay_fixed_zone offset now carry fallback ahead_within x A Hx k) as H.
    rewrite ahead_shift, !Z.add_0_r in H. apply H; assumption. }
  rewrite (Hadd this D n Hat HD HT). cbn [fst]. split; [reflexivity |]. split.
  - destruct (subtract_as_add zone n (onDay (isHealed this) (D + n))) as (_ & _ & ->).
    rewrite (Hadd (onDay (isHealed this) (D + n)) (D + n) (- n) eq_refl HT)
      by (replace (D + n + - n) with D by lia; exact HD).
    cbn [isHealed onDay]. now replace (D + n + - n) with D by lia.
  - intros k Hk.
    rewrite (Hadd (onDay (isHealed this) (D + n)) (D + n) k eq_refl HT Hk).
    rewrite (Hadd this D (n + k) Hat HD) by (now replace (D + (n + k)) with (D + n + k) by lia).
    cbn [isHealed onDay]. now replace (D + (n + k)) with (D + n + k) by lia.
Qed.

(** The fields of an instance on day [D], at or ahead of UTC. *)
Lemma onDay_fields (h : bool) (y m d : Z) :
  1 <= m <= 12 -> 1 <= d <= DaysInMonth y m ->
  year zone (onDay h (civilDay y m d)) = Int y
  /\ month zone (onDay h (civilDay y m d)) = Int m
  /\ day zone (onDay h (civilDay y m d)) = Int d.
Proof.
  intros Hm Hd.
  destruct (fixed_zone_fields offset now carry fallback
              (onDay h (civilDay y m d)) (civilDay y m d) eq_refl) as (Ey & Em & Ed).
  rewrite ahead_shift, Z.add_0_r in Ey, Em, Ed.
  destruct (fields_of_civilDay y m d Hm Hd) as (Fy & Fm & Fd).
  rewrite Fy in Ey. rewrite Fm in Em. rewrite Fd in Ed. auto.
Qed.

(** The fields of the instance on the day a setter was given: the day
    itself when the month has it, and the day that many days on in the next
    month when it has not. *)
Lemma carried_fields (h : bool) (y m d : Z) :
  1 <= m <= 12 -> 1 <= d <= 31 ->
  (d <= DaysInMonth y m ->
   year zone (onDay h (civilDay y m d)) = Int y
   /\ month zone (onDay h (civilDay y m d)) = Int m
   /\ day zone (onDay h (civilDay y m d)) = Int d)
  /\ (DaysInMonth y m < d ->
      m <= 11
      /\ year zone (onDay h (civilDay y m d)) = Int y
      /\ month zone (onDay h (civilDay y m d)) = Int (m + 1)
      /\ day zone (onDay h (civilDay y m d)) = Int (d - DaysInMonth y m)).
Proof.
  intros Hm Hd. split; intros Hdim.
  - apply onDay_fields; lia.
  - assert (Hm11 : m <= 11).
    { destruct (Z.eq_dec m 12) as [E | E]; [| lia].
      rewrite E, DaysInMonth_december in Hdim. lia. }
    split; [exact Hm11 |].
    pose proof (DaysInMonth_range y m). pose proof (DaysInMonth_range y (m + 1)).
    rewrite (civilDay_carry y m d) by lia.
    apply onDay_fields; lia.
Qed.

(** X16.  At or ahead of UTC, [addMonth (n)] rebuilds an instance whose local
    date is year [y], month [m], day [d], at any time of day, on the UTC
    midnight of day [d] of the month [n + 1] months on: the instance is
    then on that day when the month has it, and that many days into the
    following month when it has not. *)
Theorem addMonth_moves_one_month_more (this : NativeDate) (y m d n : Z) :
  year zone this = Int y -> month zone this = Int m -> day zone this = Int d ->
  1000 <= y + (m + n) / 12 <= 9999 ->
  addMonth zone (Int n) this
  = (onDay (isHealed this) (civilDay (y + (m + n) / 12) ((m + n) mod 12 + 1) d),
     VDate (Int (civilDay (y + (m + n) / 12) ((m + n) mod 12 + 1) d * msPerDay)))
  /\ (d <= DaysInMonth (y + (m + n) / 12) ((m + n) mod 12 + 1) ->
      year zone (fst (addMonth zone (Int n) this)) = Int (y + (m + n) / 12)
      /\ month zone (fst (addMonth zone (Int n) this)) = Int ((m + n) mod 12 + 1)
      /\ day zone (fst (addMonth zone (Int n) this)) = Int d)
  /\ (DaysInMonth (y + (m + n) / 12) ((m + n) mod 12 + 1) < d ->
      year zone (fst (addMonth zone (Int n) this)) = Int (y + (m + n) / 12)
      /\ month zone (fst (addMonth zone (Int n) this)) = Int ((m + n) mod 12 + 2)
      /\ day zone (fst (addMonth zone (Int n) this))
         = Int (d - DaysInMonth (y + (m + n) / 12) ((m + n) mod 12 + 1))).
Proof.
  intros Ey Em Ed Hy.
  destruct (fields_read zone this y m d Ey Em Ed) as (_ & _ & _ & _ & _ & Hm & Hd).
  pose proof (DaysInMonth_range y m) as Hdim.
  rewrite (addMonth_any_time offset now carry fallback ahead_within this y m d n Ey Em Ed Hy).
  cbn [fst]. split; [reflexivity |].
  assert (HM : 1 <= (m + n) mod 12 + 1 <= 12) by (Z.div_mod_to_equations; lia).
  destruct (carried_fields (isHealed this) (y + (m + n) / 12) ((m + n) mod 12 + 1) d
              HM ltac:(lia)) as [Hfit Hcarry].
  split; [exact Hfit |].
  intros Hlt. destruct (Hcarry Hlt) as (_ & Fy & Fm & Fd).
  replace ((m + n) mod 12 + 2) with ((m + n) mod 12 + 1 + 1) by lia. auto.
Qed.

(** X17.  So, at or ahead of UTC, [subtractMonth (1)] leaves an instance on
    its local day (at the UTC midnight of it), and [addMonth (0)] moves an
    instance that is not in December to day [d] of the next month when that
    month has it, and that many days into the month after when it has
    not. *)
Theorem subtractMonth_one_is_no_op (this : NativeDate) (y m d : Z) :
  year zone this = Int y -> month zone this = Int m -> day zone this = Int d ->
  1000 <= y <= 9999 ->
  subtractMonth zone (Int 1) this
  = (onDay (isHealed this) (civilDay y m d), VDate (Int (civilDay y m d * msPerDay)))
  /\ (year zone (fst (subtractMonth zone (Int 1) this)) = Int y
      /\ month zone (fst (subtractMonth zone (Int 1) this)) = Int m
      /\ day zone (fst (subtractMonth zone (Int 1) this)) = Int d)
  /\ (m <= 11 ->
      addMonth zone (Int 0) this
      = (onDay (isHealed this) (civilDay y (m + 1) d),
         VDate (Int (civilDay y (m + 1) d * msPerDay)))
      /\ (d <= DaysInMonth y (m + 1) ->
          year zone (fst (addMonth zone (Int 0) this)) = Int y
          /\ month zone (fst (addMonth zone (Int 0) this)) = Int (m + 1)
          /\ day zone (fst (addMonth zone (Int 0) this)) = Int d)
      /\ (DaysInMonth y (m + 1) < d ->
          year zone (fst (addMonth zone (Int 0) this)) = Int y
          /\ month zone (fst (addMonth zone (Int 0) this)) = Int (m + 2)
          /\ day zone (fst (addMonth zone (Int 0) this))
             = Int (d - DaysInMonth y (m + 1)))).
Proof.
  intros Ey Em Ed Hy.
  destruct (fields_read zone this y m d Ey Em Ed) as (_ & _ & _ & _ & _ & Hm & Hd).
  pose proof (DaysInMonth_range y m) as Hdim.
  assert (Hback : subtractMonth zone (Int 1) this
                  = (onDay (isHealed this) (civilDay y m d),
                     VDate (Int (civilDay y m d * msPerDay)))).
  { destruct (subtract_as_add zone 1 this) as (_ & -> & _).
    change (- (1)) with (-1).
    assert (E0 : (m + -1) / 12 = 0) by (Z.div_mod_to_equations; lia).
    assert (E1 : (m + -1) mod 12 + 1 = m) by (Z.div_mod_to_equations; lia).
    pose proof (addMonth_any_time offset now carry fallback ahead_within this y m d (-1) Ey Em Ed) as H.
    rewrite E0, E1, Z.add_0_r in H. exact (H Hy). }
  rewrite Hback. cbn [fst]. split; [reflexivity |].
  split; [apply onDay_fields; lia |].
  intros Hm11.
  assert (E0 : (m + 0) / 12 = 0) by (Z.div_mod_to_equations; lia).
  assert (E1 : (m + 0) mod 12 + 1 = m + 1) by (Z.div_mod_to_equations; lia).
  pose proof (addMonth_any_time offset now carry fallback ahead_within this y m d 0 Ey Em Ed) as H.
  rewrite E0, E1, Z.add_0_r in H. rewrite (H Hy). cbn [fst].
  split; [reflexivity |].
  destruct (carried_fields (isHealed this) y (m + 1) d ltac:(lia) ltac:(lia))
    as [Hfit Hcarry].
  split; [exact Hfit |].
  intros Hlt. destruct (Hcarry Hlt) as (_ & Fy & Fm & Fd).
  replace (m + 2) with (m + 1 + 1) by lia. auto.
Qed.

(** X15.  At or ahead of UTC, [addYear (n)] moves an instance whose local
    date is year [y], month [m], day [d], at any time of day, to month [m],
    day [d] of year [y + n] when that year has the day, and to 1 March when
    the day is a 29 February it has not. *)
Theorem addYear_keeps_month_and_day (this : NativeDate) (y m d n : Z) :
  year zone this = Int y -> month zone this = Int m -> day zone this = Int d ->
  1000 <= y + n <= 9999 ->
  addYear zone (Int n) this
  = (onDay (isHealed this) (civilDay (y + n) m d),
     VDate (Int (civilDay (y + n) m d * msPerDay)))
  /\ (d <= DaysInMonth (y + n) m ->
      year zone (fst (addYear zone (Int n) this)) = Int (y + n)
      /\ month zone (fst (addYear zone (Int n) this)) = Int m
      /\ day zone (fst (addYear zone (Int n) this)) = Int d)
  /\ (DaysInMonth (y + n) m < d ->
      m = 2 /\ d = 29
      /\ year zone (fst (addYear zone (Int n) this)) = Int (y + n)
      /\ month zone (fst (addYear zone (Int n) this)) = Int 3
      /\ day zone (fst (addYear zone (Int n) this)) = Int 1).
Proof.
  intros Ey Em Ed Hy.
  destruct (fields_read zone this y m d Ey Em Ed) as (_ & _ & _ & _ & _ & Hm & Hd).
  rewrite (addYear_any_time offset now carry fallback ahead_within this y m d n Ey Em Ed Hy).
  cbn [fst]. split; [reflexivity |]. split.
  - intros Hfit. apply onDay_fields; lia.
  - intros Hlt.
    assert (Hfeb : m = 2 /\ d = 29 /\ DaysInMonth (y + n) 2 = 28).
    { destruct (Z.eq_dec m 2) as [E2 | E2].
      - rewrite E2 in *. change (DaysInMonth (y + n) 2) with (28 + LeapDays (y + n)) in *.
        change (DaysInMonth y 2) with (28 + LeapDays y) in Hd.
        pose proof (LeapDays_bounds y). pose proof (LeapDays_bounds (y + n)). lia.
      - rewrite (DaysInMonth_other_months (y + n) y m E2) in Hlt. lia. }
    destruct Hfeb as (E2 & E29 & E28). rewrite E2, E29.
    split; [reflexivity |]. split; [reflexivity |].
    rewrite (civilDay_carry (y + n) 2 29) by lia. rewrite E28.
    apply onDay_fields; [lia | cbn; lia].
Qed.

End AheadOfUtc.

Section BehindUtc.

Variables (offset now : Z) (carry : bool) (fallback : string -> number).
Hypothesis behind : - msPerDay <= offset < 0.

Local Notation "'zone'" := (fixedZone offset now carry fallback).

(** X18.  Behind UTC an instance that holds the UTC midnight of day [D] is on
    day [D - 1] in local time, and [addDay (n)] rebuilds it on the UTC
    midnight of day [D - 1 + n], which is day [D - 2 + n] in local time:
    every call ends a day early, and [addDay (0)] moves the instance a
    day back. *)
Theorem addDay_behind_utc (this : NativeDate) (D n : Z) :
  generatedDate this = Int (D * msPerDay) ->
  fourDigitYear (D - 1) -> fourDigitYear (D - 1 + n) ->
  Day (LocalTime zone (D * msPerDay)) = D - 1
  /\ addDay zone (Int n) this
     = (onDay (isHealed this) (D - 1 + n), VDate (Int ((D - 1 + n) * msPerDay)))
  /\ Day (LocalTime zone ((D - 1 + n) * msPerDay)) = D - 2 + n.
Proof.
  intros Hat HD HT.
  assert (Hshift : offset / msPerDay = -1)
    by (unfold msPerDay in *; Z.div_mod_to_equations; lia).
  assert (Hwithin : - msPerDay <= offset < msPerDay) by (unfold msPerDay in *; lia).
  rewrite !Day_local_fixed, Hshift.
  pose proof (addDay_fixed_zone offset now carry fallback Hwithin this D Hat n) as H.
  rewrite Hshift in H. replace (D + -1) with (D - 1) in H by lia.
  split; [lia |]. split; [apply H; assumption | lia].
Qed.

End BehindUtc.

(* ================================================================== *)
(** * Instances that do not hold a valid instant *)
(* ================================================================== *)

(** X19.  Arithmetic on an instance whose Date is invalid: whatever the number,
    [dateString] becomes "NaN-NaN-NaN" and the Date becomes what the host
    makes of that text. *)
Theorem arithmetic_on_invalid (host : Host) (n : number) (this : NativeDate) :
  generatedDate this = NaN ->
  let result :=
    ({| isHealed := isHealed this;
        generatedDate := hostParse host "NaN-NaN-NaN";
        dateString := "NaN-NaN-NaN" |},
     VDate (hostParse host "NaN-NaN-NaN")) in
  addYear host n this = result /\ addMonth host n this = result
  /\ addDay host n this = result /\ subtractYear host n this = result
  /\ subtractMonth host n this = result /\ subtractDay host n this = result.
Proof.
  destruct this as [h gd ds]. cbn [generatedDate]. intros ->.
  destruct n; repeat split.
Qed.

(** X9.  Construction from a native Date, valid or not: the Date is adopted and
    never healed, [dateString] is its own [isoString], the warning is
    written exactly for an Invalid Date, and [isValidDate] and [isEqual]
    with itself are true exactly for a valid one. *)
Theorem construction_from_date (host : Host) (tv : number) :
  exists this,
    nativeDateHelper host (VDate tv)
      = Normal (this, if toStringIsInvalidDate tv then ["DATE is not valid Date"] else [])
    /\ isHealed this = false
    /\ generatedDate this = tv
    /\ dateString this = isoString host this
    /\ (tv = NaN -> dateString this = "NaN-NaN-NaN")
    /\ (isValidDate host this = true <-> tv <> NaN)
    /\ (isEqual host this this = true <-> tv <> NaN).
Proof.
  eexists. split; [reflexivity |]. cbn [isHealed generatedDate dateString].
  split; [reflexivity |]. split; [reflexivity |]. split; [reflexivity |].
  split; [intros ->; reflexivity |]. split.
  - apply isValidDate_native.
  - unfold isEqual, year, month, day. cbn [generatedDate].
    destruct tv as [|t]; cbn [getFullYear getMonth getDate add strictEq andb].
    + split; [discriminate | congruence].
    + rewrite !Z.eqb_refl. split; [discriminate | reflexivity].
Qed.

(** X10.  Whatever the constructor is given, if it returns: the warning is
    written exactly when the Date is invalid, a healed instance is never
    invalid, and [isHealed] is set exactly when [dateString] is empty. *)
Theorem constructor_outcome
    (host : Host) (x : value) (this : NativeDate) (log : list string) :
  nativeDateHelper host x = Normal (this, log) ->
  log = (if toStringIsInvalidDate (generatedDate this)
         then ["DATE is not valid Date"] else [])
  /\ (isHealed this = true -> generatedDate this = Int (currentTime host))
  /\ (isHealed this = true <-> dateString this = "").
Proof.
  unfold nativeDateHelper, constructor. intros H.
  destruct (isDate host x) as [[|] | e]; cbn [bind] in H; [| | discriminate].
  - destruct x; try discriminate. cbn [bind] in H. injection H as <- <-.
    cbn [isHealed generatedDate dateString date truthy andb].
    split; [reflexivity |]. split; [discriminate |].
    split; [discriminate |]. intros E. now apply toIso_nonempty in E.
  - destruct (isIso x) eqn:Hiso.
    + destruct x as [| | | | s | | |]; try discriminate Hiso.
      cbn [bind] in H. injection H as <- <-.
      cbn [isHealed generatedDate dateString date truthy andb].
      split; [reflexivity |]. split; [discriminate |].
      split; [discriminate |]. intros E. exfalso.
      apply (addLeadingZeros_nonempty s); [| exact E].
      intros ->. discriminate Hiso.
    + cbn [bind] in H. injection H as <- <-. repeat split.
Qed.

(** X13.  [isBefore] is [isAfter] with the instances exchanged, [isEqual] does
    not depend on their order, and as soon as one of the two holds an
    Invalid Date all three are false. *)
Theorem comparison_exchange (host : Host) (this other : NativeDate) :
  isBefore host this other = isAfter host other this
  /\ isEqual host this other = isEqual host other this
  /\ (generatedDate this = NaN \/ generatedDate other = NaN ->
      isEqual host this other = false /\ isBefore host this other = false
      /\ isAfter host this other = false).
Proof.
  assert (Hsym : forall a b, strictEq a b = strictEq b a)
    by (intros [|a] [|b]; cbn; try reflexivity; apply Z.eqb_sym).
  assert (L1 : forall x, lt NaN x = false) by reflexivity.
  assert (L2 : forall x, lt x NaN = false) by (intros [|x]; reflexivity).
  assert (S1 : forall x, strictEq NaN x = false) by reflexivity.
  assert (S2 : forall x, strictEq x NaN = false) by (intros [|x]; reflexivity).
  unfold isBefore, isAfter, isEqual, gt. split; [| split].
  - now rewrite !(Hsym (year host this)), !(Hsym (month host this)).
  - now rewrite (Hsym (year host this)), (Hsym (month host this)),
      (Hsym (day host this)).
  - intros [H | H]; destruct (fields_of_invalid host _ H) as (Ey & Em & Ed);
      rewrite Ey, Em, Ed, ?L1, ?L2, ?S1, ?S2; cbn [andb];
      rewrite ?andb_false_r; auto.
Qed.

(** X3.  [toIso] of a four-digit year, a month and a day of the month is the
    canonical text; the native parser reads it back as the UTC midnight of
    that date, and [isIso] accepts it up to the year 2999. *)
Theorem toIso_reads_back (host : Host) (y m d : Z) :
  1000 <= y <= 9999 -> 1 <= m <= 12 -> 1 <= d <= DaysInMonth y m ->
  isCanonical (toIso (Int y) (Int m) (Int d)) = true
  /\ newDateFromString host (toIso (Int y) (Int m) (Int d))
     = Int (civilDay y m d * msPerDay)
  /\ (y <= 2999 -> isIso (VString (toIso (Int y) (Int m) (Int d))) = true).
Proof.
  intros Hy Hm Hd. pose proof (DaysInMonth_range y m) as Hdim.
  assert (Hparse : newDateFromString host (toIso (Int y) (Int m) (Int d))
                   = Int (civilDay y m d * msPerDay)).
  { unfold newDateFromString. rewrite parse_toIso, dateOnly_value by lia.
    replace (d <=? DaysInMonth y m) with true by (symmetry; apply Z.leb_le; lia).
    now rewrite orb_true_r. }
  split; [apply toIso_canonical; lia |]. split; [exact Hparse |].
  intros Hy'. rewrite toIso_text by lia.
  apply isIso_accepts. exists y, m, d, true, true. repeat split; lia.
Qed.

(** X20.  At or ahead of UTC, an instance rebuilt by arithmetic on a day with a
    four-digit year is consistent whatever it was before: [isoString] is
    its [dateString], so [isValidDateString] is true, healed or not. *)
Theorem rebuilt_instance_validates
    (offset now : Z) (carry : bool) (fallback : string -> number)
    (healedFlag : bool) (T : Z) :
  0 <= offset < msPerDay -> fourDigitYear T ->
  let zone := fixedZone offset now carry fallback in
  isoString zone (onDay healedFlag T) = dateString (onDay healedFlag T)
  /\ isValidDateString zone (onDay healedFlag T) = true
  /\ isValidDate zone (onDay healedFlag T) = true
  /\ isCanonical (isoString zone (onDay healedFlag T)) = true.
Proof.
  intros Hoff HT zone.
  destruct (fixed_zone_fields offset now carry fallback (onDay healedFlag T) T eq_refl)
    as (Ey & Em & Ed).
  replace (offset / msPerDay) with 0 in Ey, Em, Ed
    by (unfold msPerDay in *; Z.div_mod_to_equations; lia).
  rewrite Z.add_0_r in Ey, Em, Ed.
  assert (Hiso : isoString zone (onDay healedFlag T) = dateString (onDay healedFlag T))
    by (unfold isoString; subst zone; rewrite Ey, Em, Ed; reflexivity).
  split; [exact Hiso |]. split; [| split].
  - rewrite isValidDateString_isoString, Hiso. apply String.eqb_refl.
  - apply isValidDate_native. discriminate.
  - rewrite Hiso. cbn [dateString onDay]. unfold isoOfDay.
    pose proof (MonthFromTime_range (T * msPerDay)).
    pose proof (DateFromTime_range (T * msPerDay)).
    apply toIso_canonical; [exact HT | lia | lia].
Qed.

(* ================================================================== *)
(** * The further properties at concrete dates *)
(* ================================================================== *)

Lemma isValidDate_iff_validInstant_witness :
  validInstant epochDay /\ isValidDate exampleUtc epochDay = true.
Proof.
  assert (H : validInstant epochDay) by discriminate.
  split; [exact H |].
  exact (proj2 (isValidDate_iff_validInstant exampleUtc epochDay) H).
Defined.

Lemma comparison_by_local_day_witness :
  generatedDate epochDay = Int 0 /\ generatedDate nextDay = Int 86400000
  /\ isAfter exampleUtc epochDay nextDay = true.
Proof.
  split; [reflexivity | split; [reflexivity |]].
  apply (proj2 (proj2 (proj2 (comparison_by_local_day
                                exampleUtc epochDay nextDay 0 86400000
                                eq_refl eq_refl)))).
  reflexivity.
Defined.

Lemma comparison_exchange_witness :
  generatedDate invalidInstance = NaN
  /\ isEqual exampleUtc invalidInstance invalidInstance = false.
Proof.
  split; [reflexivity |].
  exact (proj1 (proj2 (proj2 (comparison_exchange exampleUtc invalidInstance
                                invalidInstance))
                  (or_introl (eq_refl NaN)))).
Defined.

Lemma isIso_grammar_witness :
  1000 <= 2024 <= 2999 /\ 1 <= 1 <= 12 /\ 1 <= 5 <= 31
  /\ isIso (VString "2024-1-05") = true.
Proof.
  assert (Hy : 1000 <= 2024 <= 2999) by lia.
  assert (Hm : 1 <= 1 <= 12) by lia.
  assert (Hd : 1 <= 5 <= 31) by lia.
  split; [exact Hy | split; [exact Hm | split; [exact Hd |]]].
  apply (proj2 (isIso_grammar "2024-1-05")).
  exists 2024, 1, 5, false, true.
  split; [exact Hy | split; [exact Hm | split; [exact Hd | reflexivity]]].
Defined.

Lemma toIso_reads_back_witness :
  1000 <= 2024 <= 9999 /\ 1 <= 2 <= 12 /\ 1 <= 29 <= DaysInMonth 2024 2
  /\ newDateFromString exampleUtc (toIso (Int 2024) (Int 2) (Int 29))
     = Int (civilDay 2024 2 29 * msPerDay).
Proof.
  assert (Hy : 1000 <= 2024 <= 9999) by lia.
  assert (Hm : 1 <= 2 <= 12) by lia.
  assert (Hd : 1 <= 29 <= DaysInMonth 2024 2) by (vm_compute; split; discriminate).
  split; [exact Hy | split; [exact Hm | split; [exact Hd |]]].
  exact (proj1 (proj2 (toIso_reads_back exampleUtc 2024 2 29 Hy Hm Hd))).
Defined.

Lemma accepted_string_ahead_of_utc_witness :
  1000 <= 2024 <= 2999 /\ 1 <= 3 <= 12 /\ 0 <= 3600000 < msPerDay
  /\ 1 <= 1 <= DaysInMonth 2024 3
  /\ exists this,
       nativeDateHelper (fixedZone 3600000 1793000000000 true (fun _ => NaN))
                        (VString "2024-3-1") = Normal (this, [])
       /\ year (fixedZone 3600000 1793000000000 true (fun _ => NaN)) this = Int 2024.
Proof.
  assert (Hy : 1000 <= 2024 <= 2999) by lia.
  assert (Hm : 1 <= 3 <= 12) by lia.
  assert (Ho : 0 <= 3600000 < msPerDay) by (unfold msPerDay; lia).
  assert (Hd : 1 <= 1 <= DaysInMonth 2024 3) by (vm_compute; split; discriminate).
  split; [exact Hy | split; [exact Hm | split; [exact Ho | split; [exact Hd |]]]].
  destruct (accepted_string_ahead_of_utc 3600000 1793000000000 true (fun _ => NaN)
              2024 3 1 false false Hy Hm Ho Hd) as (this & Hnew & Hyear & _).
  exists this. split; [exact Hnew | exact Hyear].
Defined.

Lemma overflowing_day_is_carried_witness :
  1000 <= 2023 <= 2999 /\ 1 <= 2 <= 12 /\ 0 <= 0 < msPerDay
  /\ DaysInMonth 2023 2 < 31 <= 31
  /\ exists this,
       nativeDateHelper exampleUtc (VString "2023-02-31") = Normal (this, [])
       /\ month exampleUtc this = Int 3 /\ day exampleUtc this = Int 3
       /\ isValidDateString exampleUtc this = false.
Proof.
  assert (Hy : 1000 <= 2023 <= 2999) by lia.
  assert (Hm : 1 <= 2 <= 12) by lia.
  assert (Ho : 0 <= 0 < msPerDay) by (unfold msPerDay; lia).
  assert (Hd : DaysInMonth 2023 2 < 31 <= 31) by (vm_compute; split; congruence).
  split; [exact Hy | split; [exact Hm | split; [exact Ho | split; [exact Hd |]]]].
  destruct (overflowing_day_is_carried 0 1793000000000 true (fun _ => NaN)
              2023 2 31 true true Hy Hm Ho eq_refl Hd)
    as (this & Hnew & _ & Hmonth & Hday & _ & Hvalid & _).
  exists this. split; [exact Hnew | split; [exact Hmonth | split; [exact Hday | exact Hvalid]]].
Defined.

Lemma overflowing_day_is_invalid_witness :
  1000 <= 2023 <= 2999 /\ 1 <= 2 <= 12
  /\ dayCarry (fixedZone 0 1793000000000 false (fun _ => NaN)) = false
  /\ DaysInMonth 2023 2 < 31 <= 31
  /\ exists this,
       nativeDateHelper (fixedZone 0 1793000000000 false (fun _ => NaN))
                        (VString "2023-02-31")
       = Normal (this, ["DATE is not valid Date"])
       /\ generatedDate this = NaN.
Proof.
  assert (Hy : 1000 <= 2023 <= 2999) by lia.
  assert (Hm : 1 <= 2 <= 12) by lia.
  assert (Hd : DaysInMonth 2023 2 < 31 <= 31) by (vm_compute; split; congruence).
  split; [exact Hy | split; [exact Hm | split; [reflexivity | split; [exact Hd |]]]].
  destruct (overflowing_day_is_invalid 2023 2 31 true true Hy Hm
              (fixedZone 0 1793000000000 false (fun _ => NaN)) eq_refl Hd)
    as (this & Hnew & _ & Hgd & _).
  exists this. split; [exact Hnew | exact Hgd].
Defined.

Lemma accepted_string_behind_utc_witness :
  1000 <= 2024 <= 2999 /\ 1 <= 3 <= 12 /\ - msPerDay <= -18000000 < 0
  /\ 1001 <= 2024 /\ 1 <= 1 <= DaysInMonth 2024 3
  /\ roundTrip exampleWest "2024-03-01" = Normal false.
Proof.
  assert (Hy : 1000 <= 2024 <= 2999) by lia.
  assert (Hm : 1 <= 3 <= 12) by lia.
  assert (Ho : - msPerDay <= -18000000 < 0) by (unfold msPerDay; lia).
  assert (Hy1 : 1001 <= 2024) by lia.
  assert (Hd : 1 <= 1 <= DaysInMonth 2024 3) by (vm_compute; split; discriminate).
  split; [exact Hy | split; [exact Hm | split; [exact Ho | split; [exact Hy1 | split; [exact Hd |]]]]].
  destruct (accepted_string_behind_utc (-18000000) 1793000000000 true (fun _ => NaN)
              2024 3 1 true true Hy Hm Ho Hy1 Hd)
    as (this & y' & m' & d' & _ & _ & _ & _ & _ & _ & _ & Hround).
  exact Hround.
Defined.

Lemma construction_from_date_witness :
  exists this,
    nativeDateHelper exampleUtc (VDate NaN) = Normal (this, ["DATE is not valid Date"])
    /\ isHealed this = false
    /\ (isEqual exampleUtc this this = true <-> NaN <> NaN).
Proof.
  destruct (construction_from_date exampleUtc NaN)
    as (this & Hnew & Hh & _ & _ & _ & _ & Heq).
  exists this. split; [exact Hnew | split; [exact Hh | exact Heq]].
Defined.

Lemma constructor_outcome_witness :
  nativeDateHelper exampleUtc VUndefined = Normal (healed exampleUtc, [])
  /\ (isHealed (healed exampleUtc) = true <-> dateString (healed exampleUtc) = "").
Proof.
  split; [reflexivity |].
  exact (proj2 (proj2 (constructor_outcome exampleUtc VUndefined
                         (healed exampleUtc) [] eq_refl))).
Defined.

Lemma addDay_ahead_of_utc_witness :
  0 <= 0 < msPerDay /\ generatedDate (onDay false 19783) = Int (19783 * msPerDay)
  /\ fourDigitYear 19783 /\ fourDigitYear (19783 + 1)
  /\ addDay exampleUtc (Int 1) (onDay false 19783)
     = (onDay false (19783 + 1), VDate (Int ((19783 + 1) * msPerDay))).
Proof.
  assert (Ho : 0 <= 0 < msPerDay) by (unfold msPerDay; lia).
  assert (H1 : fourDigitYear 19783) by (vm_compute; split; discriminate).
  assert (H2 : fourDigitYear (19783 + 1)) by (vm_compute; split; discriminate).
  split; [exact Ho | split; [reflexivity | split; [exact H1 | split; [exact H2 |]]]].
  exact (proj1 (addDay_ahead_of_utc 0 1793000000000 true (fun _ => NaN) Ho
                  (onDay false 19783) 19783 1 eq_refl H1 H2)).
Defined.

Lemma addYear_keeps_month_and_day_witness :
  0 <= 0 < msPerDay
  /\ year exampleUtc leapDayNoon = Int 2024
  /\ month exampleUtc leapDayNoon = Int 2
  /\ day exampleUtc leapDayNoon = Int 29
  /\ 1000 <= 2024 + 1 <= 9999 /\ DaysInMonth (2024 + 1) 2 < 29
  /\ month exampleUtc (fst (addYear exampleUtc (Int 1) leapDayNoon)) = Int 3
  /\ day exampleUtc (fst (addYear exampleUtc (Int 1) leapDayNoon)) = Int 1.
Proof.
  assert (Ho : 0 <= 0 < msPerDay) by (unfold msPerDay; lia).
  assert (Ey : year exampleUtc leapDayNoon = Int 2024) by reflexivity.
  assert (Em : month exampleUtc leapDayNoon = Int 2) by reflexivity.
  assert (Ed : day exampleUtc leapDayNoon = Int 29) by reflexivity.
  assert (Hy : 1000 <= 2024 + 1 <= 9999) by lia.
  assert (Hf : DaysInMonth (2024 + 1) 2 < 29) by reflexivity.
  split; [exact Ho | split; [exact Ey | split; [exact Em | split; [exact Ed |
    split; [exact Hy | split; [exact Hf |]]]]]].
  exact (proj2 (proj2 (proj2
           (proj2 (proj2 (addYear_keeps_month_and_day 0 1793000000000 true (fun _ => NaN) Ho
                            leapDayNoon 2024 2 29 1 Ey Em Ed Hy))
              Hf)))).
Defined.

Lemma addMonth_moves_one_month_more_witness :
  0 <= 0 < msPerDay
  /\ year exampleUtc lateEvening = Int 2024
  /\ month exampleUtc lateEvening = Int 1
  /\ day exampleUtc lateEvening = Int 15
  /\ 1000 <= 2024 + (1 + 1) / 12 <= 9999
  /\ 15 <= DaysInMonth (2024 + (1 + 1) / 12) ((1 + 1) mod 12 + 1)
  /\ year exampleUtc (fst (addMonth exampleUtc (Int 1) lateEvening))
     = Int (2024 + (1 + 1) / 12)
  /\ month exampleUtc (fst (addMonth exampleUtc (Int 1) lateEvening))
     = Int ((1 + 1) mod 12 + 1)
  /\ day exampleUtc (fst (addMonth exampleUtc (Int 1) lateEvening)) = Int 15.
Proof.
  assert (Ho : 0 <= 0 < msPerDay) by (unfold msPerDay; lia).
  assert (Ey : year exampleUtc lateEvening = Int 2024) by reflexivity.
  assert (Em : month exampleUtc lateEvening = Int 1) by reflexivity.
  assert (Ed : day exampleUtc lateEvening = Int 15) by reflexivity.
  assert (Hy : 1000 <= 2024 + (1 + 1) / 12 <= 9999) by (vm_compute; split; discriminate).
  assert (Hf : 15 <= DaysInMonth (2024 + (1 + 1) / 12) ((1 + 1) mod 12 + 1))
    by (vm_compute; discriminate).
  split; [exact Ho | split; [exact Ey | split; [exact Em | split; [exact Ed |
    split; [exact Hy | split; [exact Hf |]]]]]].
  exact (proj1 (proj2 (addMonth_moves_one_month_more 0 1793000000000 true (fun _ => NaN) Ho
                         lateEvening 2024 1 15 1 Ey Em Ed Hy)) Hf).
Defined.

Lemma subtractMonth_one_is_no_op_witness :
  0 <= 0 < msPerDay
  /\ year exampleUtc endOfJanuary = Int 2024
  /\ month exampleUtc endOfJanuary = Int 1
  /\ day exampleUtc endOfJanuary = Int 31
  /\ 1000 <= 2024 <= 9999 /\ 1 <= 11 /\ DaysInMonth 2024 (1 + 1) < 31
  /\ fst (subtractMonth exampleUtc (Int 1) endOfJanuary) = onDay false (civilDay 2024 1 31)
  /\ year exampleUtc (fst (addMonth exampleUtc (Int 0) endOfJanuary)) = Int 2024
  /\ month exampleUtc (fst (addMonth exampleUtc (Int 0) endOfJanuary)) = Int (1 + 2)
  /\ day exampleUtc (fst (addMonth exampleUtc (Int 0) endOfJanuary))
     = Int (31 - DaysInMonth 2024 (1 + 1)).
Proof.
  assert (Ho : 0 <= 0 < msPerDay) by (unfold msPerDay; lia).
  assert (Ey : year exampleUtc endOfJanuary = Int 2024) by reflexivity.
  assert (Em : month exampleUtc endOfJanuary = Int 1) by reflexivity.
  assert (Ed : day exampleUtc endOfJanuary = Int 31) by reflexivity.
  assert (Hy : 1000 <= 2024 <= 9999) by lia.
  assert (Hm : 1 <= 11) by lia.
  assert (Hf : DaysInMonth 2024 (1 + 1) < 31) by reflexivity.
  split; [exact Ho | split; [exact Ey | split; [exact Em | split; [exact Ed |
    split; [exact Hy | split; [exact Hm | split; [exact Hf |]]]]]]].
  split.
  - exact (f_equal fst (proj1 (subtractMonth_one_is_no_op 0 1793000000000 true (fun _ => NaN)
                                 Ho endOfJanuary 2024 1 31 Ey Em Ed Hy))).
  - exact (proj2 (proj2 (proj2 (proj2 (subtractMonth_one_is_no_op 0 1793000000000 true
                                         (fun _ => NaN) Ho endOfJanuary 2024 1 31
                                         Ey Em Ed Hy)) Hm)) Hf).
Defined.

Lemma addDay_behind_utc_witness :
  - msPerDay <= -18000000 < 0
  /\ generatedDate (onDay false 19783) = Int (19783 * msPerDay)
  /\ fourDigitYear (19783 - 1) /\ fourDigitYear (19783 - 1 + 0)
  /\ addDay exampleWest (Int 0) (onDay false 19783)
     = (onDay false (19783 - 1 + 0), VDate (Int ((19783 - 1 + 0) * msPerDay))).
Proof.
  assert (Ho : - msPerDay <= -18000000 < 0) by (unfold msPerDay; lia).
  assert (H1 : fourDigitYear (19783 - 1)) by (vm_compute; split; discriminate).
  assert (H2 : fourDigitYear (19783 - 1 + 0)) by (vm_compute; split; discriminate).
  split; [exact Ho | split; [reflexivity | split; [exact H1 | split; [exact H2 |]]]].
  exact (proj1 (proj2 (addDay_behind_utc (-18000000) 1793000000000 true (fun _ => NaN) Ho
                         (onDay false 19783) 19783 0 eq_refl H1 H2))).
Defined.

Lemma arithmetic_on_invalid_witness :
  generatedDate invalidInstance = NaN
  /\ addDay exampleUtc (Int 1) invalidInstance = (invalidInstance, VDate NaN).
Proof.
  split; [reflexivity |].
  exact (proj1 (proj2 (proj2 (arithmetic_on_invalid exampleUtc (Int 1)
                                invalidInstance (eq_refl NaN))))).
Defined.

Lemma rebuilt_instance_validates_witness :
  0 <= 0 < msPerDay /\ fourDigitYear 19783
  /\ isValidDateString exampleUtc (onDay true 19783) = true.
Proof.
  assert (Ho : 0 <= 0 < msPerDay) by (unfold msPerDay; lia).
  assert (H1 : fourDigitYear 19783) by (vm_compute; split; discriminate).
  split; [exact Ho | split; [exact H1 |]].
  exact (proj1 (proj2 (rebuilt_instance_validates 0 1793000000000 true (fun _ => NaN)
                         true 19783 Ho H1))).
Defined.
